(** * check-usage: the usage-record parser and the percentage report

    A shallow embedding of [scripts/check-usage.py].  The script is glue
    code around three library calls ([float], [datetime.strptime],
    [datetime.fromtimestamp]) and two external collaborators (the TOML
    loader and the Xfinity scraper); each [try]/[except] block of the
    script becomes a [try_except] over an explicit exception type, so that
    which exception is caught where -- and which one escapes -- can be
    computed.

    Python floats are IEEE binary64 values: they are embedded as Rocq's
    primitive floats, so the report's arithmetic is evaluated with the
    roundings CPython performs. *)

From Stdlib Require Import ZArith List String Ascii Bool Lia Floats.
Import ListNotations.
Local Open Scope string_scope.
Local Open Scope list_scope.
Local Open Scope Z_scope.
Set Warnings "-register-all,-inexact-float".

(** ** Python values, exceptions and the builtins the script calls *)

Module Py.

(** The exception classes that can arise in the script.  [RuntimeError]
    and [OSError] carry the text [str(e)] formats; [SystemExit] carries the
    status passed to [sys.exit]; [OtherException] stands for classes raised
    by a collaborator that no handler of the script names. *)
Inductive exn : Type :=
| KeyError
| IndexError
| ValueError
| TypeError
| OverflowError
| ZeroDivisionError
| UnboundLocalError
| OSError (msg : string)
| RuntimeError (msg : string)
| SystemExit (status : Z)
| OtherException (cls : string).

(** The result of evaluating an expression: a value or a raised exception. *)
Inductive res (A : Type) : Type :=
| Ok (a : A)
| Raise (e : exn).
Arguments Ok {A} a.
Arguments Raise {A} e.

Definition bind {A B : Type} (m : res A) (k : A -> res B) : res B :=
  match m with
  | Ok a => k a
  | Raise e => Raise e
  end.

(** [try: body  except ...: handler]: the handler picks the exceptions it
    catches ([None] lets the exception through). *)
Definition try_except {A : Type} (body : res A) (handler : exn -> option (res A)) : res A :=
  match body with
  | Ok a => Ok a
  | Raise e =>
      match handler e with
      | Some h => h
      | None => Raise e
      end
  end.

(** JSON-like values, as the scraper returns them: dictionaries have string
    keys and keep insertion order; lookup takes the first binding. *)
Inductive value : Type :=
| VNone
| VBool (b : bool)
| VInt (z : Z)
| VFloat (f : float)
| VStr (s : string)
| VList (l : list value)
| VDict (d : list (string * value)).

Fixpoint lookup (k : string) (d : list (string * value)) : option value :=
  match d with
  | [] => None
  | (k', v) :: d' => if String.eqb k k' then Some v else lookup k d'
  end.

(** [obj[key]] for a string key. *)
Definition getitem (obj : value) (key : string) : res value :=
  match obj with
  | VDict d =>
      match lookup key d with
      | Some v => Ok v
      | None => Raise KeyError
      end
  | _ => Raise TypeError
  end.

Fixpoint last_char (s : string) : option ascii :=
  match s with
  | EmptyString => None
  | String c EmptyString => Some c
  | String _ s' => last_char s'
  end.

(** [obj[-1]]: the last element of a sequence.  On a dictionary [-1] is
    looked up as a key, which a string-keyed dictionary does not have. *)
Definition getitem_last (obj : value) : res value :=
  match obj with
  | VList l =>
      match rev l with
      | v :: _ => Ok v
      | [] => Raise IndexError
      end
  | VStr s =>
      match last_char s with
      | Some c => Ok (VStr (String c EmptyString))
      | None => Raise IndexError
      end
  | VDict _ => Raise KeyError
  | _ => Raise TypeError
  end.

(** *** Integers and floats *)

(** The quotient [a / b] of two integers ([b > 0]) rounded to the nearest
    binary64 value, ties to even: CPython's [int.__truediv__] and the
    decimal-to-binary conversion of [float(str)] both round this way. *)
Definition round_quotient (a b : Z) : spec_float :=
  if a =? 0 then S754_zero false
  else
    let '(q, e, l) := SFdiv_core_binary prec emax (Z.abs a) 0 b 0 in
    binary_round_aux prec emax (a <? 0) q e l.

(** [a / b] on integers. *)
Definition int_truediv (a b : Z) : res float :=
  if b =? 0 then Raise ZeroDivisionError
  else
    let sf := if b <? 0 then round_quotient (- a) (- b) else round_quotient a b in
    match sf with
    | S754_infinity _ => Raise OverflowError
    | _ => Ok (SF2Prim sf)
    end.

(** [float(n)] for an integer [n]. *)
Definition float_of_int (n : Z) : res float :=
  match round_quotient n 1 with
  | S754_infinity _ => Raise OverflowError
  | sf => Ok (SF2Prim sf)
  end.

(** [int(x)] for a float: truncation towards zero. *)
Definition int_of_float (x : float) : res Z :=
  match Prim2SF x with
  | S754_nan => Raise ValueError
  | S754_infinity _ => Raise OverflowError
  | S754_zero _ => Ok 0
  | S754_finite s m e =>
      let n := if 0 <=? e then Z.shiftl (Zpos m) e else Z.shiftr (Zpos m) (- e) in
      Ok (if s then - n else n)
  end.

(** [x / y] on floats: Python raises where IEEE 754 would return an
    infinity or a NaN. *)
Definition truediv (x y : float) : res float :=
  if PrimFloat.eqb y 0%float then Raise ZeroDivisionError else Ok (x / y)%float.

(** The integer nearest to [m * 2^e], ties to even. *)
Definition round_scaled (m e : Z) : Z :=
  if 0 <=? e then Z.shiftl m e
  else
    let q := Z.shiftr m (- e) in
    let r := m - Z.shiftl q (- e) in
    match 2 * r ?= Z.shiftl 1 (- e) with
    | Lt => q
    | Gt => q + 1
    | Eq => if Z.even q then q else q + 1
    end.

Definition digit_char (d : Z) : ascii := ascii_of_nat (48 + Z.to_nat d).

(** The decimal digits of a non-negative integer; [fuel] bounds their
    number. *)
Fixpoint digits_of (fuel : nat) (n : Z) (acc : string) : string :=
  match fuel with
  | O => acc
  | S fuel' =>
      let acc' := String (digit_char (n mod 10)) acc in
      if n <? 10 then acc' else digits_of fuel' (n / 10) acc'
  end.

Definition str_of_nonneg (n : Z) : string :=
  digits_of (S (Z.to_nat (Z.log2 n))) n EmptyString.

(** [format(x, ".2f")]: the exact binary value rounded to two decimals,
    ties to even. *)
Definition format_fixed2 (x : float) : string :=
  match Prim2SF x with
  | S754_nan => "nan"
  | S754_infinity s => if s then "-inf" else "inf"
  | S754_zero s => if s then "-0.00" else "0.00"
  | S754_finite s m e =>
      let n := round_scaled (100 * Zpos m) e in
      ((if s then "-" else "") ++ str_of_nonneg (n / 100) ++ "."
        ++ String (digit_char (n mod 100 / 10)) (String (digit_char (n mod 10)) EmptyString))%string
  end.

(** *** [float(str)] *)

Definition is_space (c : ascii) : bool :=
  let n := Z.of_nat (nat_of_ascii c) in
  ((9 <=? n) && (n <=? 13)) || (n =? 32).

Definition is_digit (c : ascii) : bool :=
  let n := Z.of_nat (nat_of_ascii c) in (48 <=? n) && (n <=? 57).

Definition digit_val (c : ascii) : Z := Z.of_nat (nat_of_ascii c) - 48.

Definition lower (c : ascii) : ascii :=
  let n := nat_of_ascii c in
  if ((65 <=? Z.of_nat n) && (Z.of_nat n <=? 90)) then ascii_of_nat (n + 32) else c.

Fixpoint lstrip (l : list ascii) : list ascii :=
  match l with
  | c :: l' => if is_space c then lstrip l' else l
  | [] => []
  end.

Definition strip (l : list ascii) : list ascii := rev (lstrip (rev (lstrip l))).

(** The digits that follow the first digit of a [digitpart]: a single
    underscore may separate two digits. *)
Fixpoint digitpart_tail (l : list ascii) : list Z * list ascii :=
  match l with
  | c :: l' =>
      if is_digit c then
        let (ds, r) := digitpart_tail l' in (digit_val c :: ds, r)
      else if Ascii.eqb c "_" then
        match l' with
        | c2 :: l'' =>
            if is_digit c2 then
              let (ds, r) := digitpart_tail l'' in (digit_val c2 :: ds, r)
            else ([], l)
        | [] => ([], l)
        end
      else ([], l)
  | [] => ([], [])
  end.

Definition digitpart (l : list ascii) : option (list Z * list ascii) :=
  match l with
  | c :: l' =>
      if is_digit c then
        let (ds, r) := digitpart_tail l' in Some (digit_val c :: ds, r)
      else None
  | [] => None
  end.

(** [number ::= [digitpart] "." digitpart | digitpart ["."]]: the integer
    digits, the fraction digits and the rest of the input. *)
Definition number (l : list ascii) : option (list Z * list Z * list ascii) :=
  match digitpart l with
  | Some (ip, r) =>
      match r with
      | c :: r' =>
          if Ascii.eqb c "." then
            match digitpart r' with
            | Some (fp, r'') => Some (ip, fp, r'')
            | None => Some (ip, [], r')
            end
          else Some (ip, [], r)
      | [] => Some (ip, [], [])
      end
  | None =>
      match l with
      | c :: r' =>
          if Ascii.eqb c "." then
            match digitpart r' with
            | Some (fp, r'') => Some ([], fp, r'')
            | None => None
            end
          else None
      | [] => None
      end
  end.

Definition sign (l : list ascii) : bool * list ascii :=
  match l with
  | c :: l' =>
      if Ascii.eqb c "-" then (true, l')
      else if Ascii.eqb c "+" then (false, l')
      else (false, l)
  | [] => (false, [])
  end.

(** [exponent ::= "e" [sign] digitpart], to the end of the input. *)
Definition exponent (l : list ascii) : option Z :=
  match l with
  | [] => Some 0
  | c :: l' =>
      if Ascii.eqb c "e" then
        let (neg, l'') := sign l' in
        match digitpart l'' with
        | Some (ds, []) =>
            let n := fold_left (fun acc d => 10 * acc + d) ds 0 in
            Some (if neg then - n else n)
        | _ => None
        end
      else None
  end.

(** The binary64 value nearest to [m * 10^e], for the mantissa [m >= 0]
    written with [nd] digits.  The two shortcuts keep the powers of ten
    small: a non-zero mantissa times [10^311] or more rounds to infinity,
    and a value below [10^-330] to zero. *)
Definition decimal_to_float (neg : bool) (m nd e : Z) : float :=
  let sf :=
    if m =? 0 then S754_zero neg
    else if 310 <? e then S754_infinity neg
    else if e + nd <? -330 then S754_zero neg
    else
      let a := if neg then - m else m in
      if 0 <=? e then round_quotient (a * 10 ^ e) 1
      else round_quotient a (10 ^ (- e)) in
  SF2Prim sf.

Definition float_of_string (s : string) : res float :=
  let l := map lower (strip (list_ascii_of_string s)) in
  let (neg, body) := sign l in
  let word := string_of_list_ascii body in
  if String.eqb word "inf" || String.eqb word "infinity" then
    Ok (if neg then neg_infinity else infinity)
  else if String.eqb word "nan" then Ok nan
  else
    match number body with
    | Some (ip, fp, r) =>
        match exponent r with
        | Some ex =>
            let m := fold_left (fun acc d => 10 * acc + d) (ip ++ fp) 0 in
            Ok (decimal_to_float neg m (Z.of_nat (List.length (ip ++ fp)))
                  (ex - Z.of_nat (List.length fp)))
        | None => Raise ValueError
        end
    | None => Raise ValueError
    end.

(** [float(x)]. *)
Definition to_float (x : value) : res float :=
  match x with
  | VFloat f => Ok f
  | VInt n => float_of_int n
  | VBool b => Ok (if b then 1%float else 0%float)
  | VStr s => float_of_string s
  | VNone | VList _ | VDict _ => Raise TypeError
  end.

End Py.

(** ** The [datetime] module *)

Module Datetime.
Import Py.

(** A naive [datetime.datetime] and a normalised [datetime.timedelta]. *)
Record datetime : Type := mkdatetime {
  year : Z; month : Z; day : Z;
  hour : Z; minute : Z; second : Z; microsecond : Z
}.

Record timedelta : Type := mktimedelta {
  days : Z; seconds : Z; microseconds : Z
}.

Definition is_leap (y : Z) : bool :=
  (y mod 4 =? 0) && (negb (y mod 100 =? 0) || (y mod 400 =? 0)).

Definition days_in_month (y m : Z) : Z :=
  if m =? 2 then (if is_leap y then 29 else 28)
  else if (m =? 4) || (m =? 6) || (m =? 9) || (m =? 11) then 30
  else 31.

Definition days_before_year (y : Z) : Z :=
  let p := y - 1 in p * 365 + p / 4 - p / 100 + p / 400.

Definition days_before_month (y m : Z) : Z :=
  fold_left (fun acc k => acc + days_in_month y k)
            (map Z.of_nat (seq 1 (Z.to_nat (m - 1)))) 0.

Definition ymd2ord (y m d : Z) : Z :=
  days_before_year y + days_before_month y m + d.

Definition toordinal (t : datetime) : Z := ymd2ord (year t) (month t) (day t).

(** [timedelta(days, seconds, microseconds)]: the constructor carries
    microseconds into seconds and seconds into days. *)
Definition new_timedelta (d s us : Z) : timedelta :=
  let s1 := s + us / 1000000 in
  let d1 := d + s1 / 86400 in
  mktimedelta d1 (s1 mod 86400) (us mod 1000000).

(** [a - b] on naive datetimes. *)
Definition sub (a b : datetime) : timedelta :=
  let secs t := second t + minute t * 60 + hour t * 3600 in
  new_timedelta (toordinal a - toordinal b) (secs a - secs b)
                (microsecond a - microsecond b).

(** The microseconds from the start of day 0 to a datetime, and the exact
    distance between two datetimes. *)
Definition abs_microseconds (t : datetime) : Z :=
  (toordinal t * 86400 + hour t * 3600 + minute t * 60 + second t) * 10 ^ 6 + microsecond t.

Definition microseconds_between (a b : datetime) : Z :=
  abs_microseconds a - abs_microseconds b.

(** [td.total_seconds()]: an integer division into a float. *)
Definition total_seconds (td : timedelta) : res float :=
  int_truediv ((days td * 86400 + seconds td) * 10 ^ 6 + microseconds td) (10 ^ 6).

(** *** [datetime.strptime]

    [_strptime] turns the format into a regular expression, one group of
    ordered alternatives per directive, and takes the first match in
    backtracking order.  The directives of [DATE_FMT] and plain characters
    are modelled; any other directive is reported as a bad one. *)

Definition charclass : Type := ascii -> bool.

Definition between (lo hi : ascii) : charclass :=
  fun c => (nat_of_ascii lo <=? nat_of_ascii c)%nat && (nat_of_ascii c <=? nat_of_ascii hi)%nat.

Definition lit (c : ascii) : charclass := Ascii.eqb c.

Inductive directive : Type := Dm | Dd | DY | Lit (c : ascii).

(** The alternatives of each directive, in the order [_strptime] lists
    them: [%m] is [1[0-2]|0[1-9]|[1-9]], [%d] is
    [3[0-1]|[1-2]\d|0[1-9]|[1-9]| [1-9]] and [%Y] is [\d\d\d\d]. *)
Definition regex_of (d : directive) : list (list charclass) :=
  match d with
  | Dm => [ [lit "1"; between "0" "2"]; [lit "0"; between "1" "9"]; [between "1" "9"] ]
  | Dd => [ [lit "3"; between "0" "1"]; [between "1" "2"; between "0" "9"];
            [lit "0"; between "1" "9"]; [between "1" "9"]; [lit " "; between "1" "9"] ]
  | DY => [ [between "0" "9"; between "0" "9"; between "0" "9"; between "0" "9"] ]
  | Lit c => [ [lit c] ]
  end.

Fixpoint compile (fmt : list ascii) : option (list directive) :=
  match fmt with
  | [] => Some []
  | c :: rest =>
      if Ascii.eqb c "%" then
        match rest with
        | k :: rest' =>
            let d := if Ascii.eqb k "m" then Some Dm
                     else if Ascii.eqb k "d" then Some Dd
                     else if Ascii.eqb k "Y" then Some DY
                     else if Ascii.eqb k "%" then Some (Lit "%")
                     else None in
            match d, compile rest' with
            | Some d, Some ds => Some (d :: ds)
            | _, _ => None
            end
        | [] => None
        end
      else
        match compile rest with
        | Some ds => Some (Lit c :: ds)
        | None => None
        end
  end.

Fixpoint match_classes (cs : list charclass) (s : list ascii) : option (list ascii * list ascii) :=
  match cs, s with
  | [], _ => Some ([], s)
  | p :: cs', c :: s' =>
      if p c then
        match match_classes cs' s' with
        | Some (tok, r) => Some (c :: tok, r)
        | None => None
        end
      else None
  | _ :: _, [] => None
  end.

Fixpoint first_match {A : Type} (f : list charclass -> option A) (alts : list (list charclass)) : option A :=
  match alts with
  | [] => None
  | a :: alts' =>
      match f a with
      | Some x => Some x
      | None => first_match f alts'
      end
  end.

(** The first match of the whole expression at the start of [s]: the text
    each directive matched, and the unconverted rest. *)
Fixpoint match_directives (ds : list directive) (s : list ascii)
  : option (list (directive * list ascii) * list ascii) :=
  match ds with
  | [] => Some ([], s)
  | d :: ds' =>
      first_match
        (fun alt =>
           match match_classes alt s with
           | Some (tok, rest) =>
               match match_directives ds' rest with
               | Some (fields, r) => Some ((d, tok) :: fields, r)
               | None => None
               end
           | None => None
           end)
        (regex_of d)
  end.

(** [int(tok)] for the text a directive matched (digits, and for [%d]
    possibly a leading space). *)
Definition int_of_token (tok : list ascii) : Z :=
  fold_left (fun acc c => if is_digit c then 10 * acc + digit_val c else acc) tok 0.

Definition field_eqb (a b : directive) : bool :=
  match a, b with
  | Dm, Dm | Dd, Dd | DY, DY => true
  | _, _ => false
  end.

(** The value of a directive's group; when a directive occurs several
    times the last occurrence is the one read. *)
Definition field (d : directive) (default : Z) (fields : list (directive * list ascii)) : Z :=
  fold_left (fun acc f => if field_eqb d (fst f) then int_of_token (snd f) else acc)
            fields default.

(** [datetime.strptime(data, fmt)]. *)
Definition strptime (data : value) (fmt : string) : res datetime :=
  match data with
  | VStr s =>
      match compile (list_ascii_of_string fmt) with
      | None => Raise ValueError
      | Some ds =>
          match match_directives ds (list_ascii_of_string s) with
          | Some (fields, []) =>
              let y := field DY 1900 fields in
              let m := field Dm 1 fields in
              let d := field Dd 1 fields in
              if (1 <=? y) && (y <=? 9999) && (1 <=? d) && (d <=? days_in_month y m)
              then Ok (mkdatetime y m d 0 0 0 0)
              else Raise ValueError
          | _ => Raise ValueError
          end
      end
  | _ => Raise TypeError
  end.

(** *** [datetime.fromtimestamp] *)

(** The year, month and day of a proleptic Gregorian ordinal
    ([_ord2ymd]). *)
Definition ord2ymd (n0 : Z) : Z * Z * Z :=
  let n := n0 - 1 in
  let n400 := n / 146097 in let n := n mod 146097 in
  let n100 := n / 36524 in let n := n mod 36524 in
  let n4 := n / 1461 in let n := n mod 1461 in
  let n1 := n / 365 in let n := n mod 365 in
  let y := n400 * 400 + 1 + n100 * 100 + n4 * 4 + n1 in
  if (n1 =? 4) || (n100 =? 4) then (y - 1, 12, 31)
  else
    let m := Z.shiftr (n + 50) 5 in
    let preceding := days_before_month y m in
    if n <? preceding then (y, m - 1, n - (preceding - days_in_month y (m - 1)) + 1)
    else (y, m, n - preceding + 1).

(** The integer nearest to a finite float, ties to even. *)
Definition round_half_even (x : float) : Z :=
  match Prim2SF x with
  | S754_finite s m e =>
      let n := round_scaled (Zpos m) e in
      if s then - n else n
  | _ => 0
  end.

(** A timestamp as whole seconds and microseconds
    ([_PyTime_ObjectToTimeval], rounding half to even): the fraction of a
    float is scaled to microseconds in floating point and then rounded. *)
Definition to_timeval (ts : value) : res (Z * Z) :=
  let in_time_t (sec : Z) := (- 2 ^ 63 <=? sec) && (sec <? 2 ^ 63) in
  match ts with
  | VInt n => if in_time_t n then Ok (n, 0) else Raise OverflowError
  | VBool b => Ok (if b then 1 else 0, 0)
  | VFloat f =>
      match Prim2SF f with
      | S754_nan => Raise ValueError
      | S754_infinity _ => Raise OverflowError
      | _ =>
          match int_of_float f with
          | Ok ip =>
              let us := round_half_even ((f - SF2Prim (round_quotient ip 1)) * 1000000)%float in
              let '(sec, us) :=
                if 1000000 <=? us then (ip + 1, us - 1000000)
                else if us <? 0 then (ip - 1, us + 1000000)
                else (ip, us) in
              if in_time_t sec then Ok (sec, us) else Raise OverflowError
          | Raise e => Raise e
          end
      end
  | VNone | VStr _ | VList _ | VDict _ => Raise TypeError
  end.

(** [datetime.fromtimestamp(ts)]: the local wall-clock time of a POSIX
    timestamp.  [utcoffset] gives the host's offset from UTC, in seconds,
    at a given instant.  A year that does not fit the C [struct tm] makes
    [localtime] fail; a year outside 1..9999 is refused, both for the
    instant itself and for the instant a day earlier, which CPython
    converts as well to detect a repeated wall-clock hour. *)
Definition fromtimestamp (utcoffset : Z -> Z) (ts : value) : res datetime :=
  bind (to_timeval ts) (fun '(sec, us) =>
    let loc := sec + utcoffset sec in
    let '(y, m, d) := ord2ymd (719163 + loc / 86400) in
    let sod := loc mod 86400 in
    let probe := sec - 86400 + utcoffset (sec - 86400) in
    let '(py, _, _) := ord2ymd (719163 + probe / 86400) in
    if negb ((- 2 ^ 31 <=? y - 1900) && (y - 1900 <? 2 ^ 31)) then Raise (OSError "Value too large for defined data type")
    else if (1 <=? y) && (y <=? 9999) && (1 <=? py) && (py <=? 9999)
    then Ok (mkdatetime y m d (sod / 3600) (sod mod 3600 / 60) (sod mod 60) us)
    else Raise ValueError).

End Datetime.

(** ** The script *)

Module CheckUsage.
Import Py Datetime.

(** *** Output and control flow of a run *)

Inductive stream : Type := stdout | stderr.

(** An argument of [str.format]: an exception (formatted as [str(e)]), a
    float under [:.2f], an integer, or any value under the default
    format. *)
Inductive arg : Type :=
| AExn (e : exn)
| AFixed2 (f : float)
| AInt (n : Z)
| AValue (v : value).

(** One call [print(template.format(args), file=to)]. *)
Record line : Type := mkline {
  to : stream;
  template : string;
  args : list arg
}.

(** A computation that prints and then returns or raises. *)
Definition io (A : Type) : Type := list line * res A.

Class Monad (M : Type -> Type) : Type := {
  ret : forall {A : Type}, A -> M A;
  mbind : forall {A B : Type}, M A -> (A -> M B) -> M B
}.

#[export] Instance Monad_res : Monad res := {
  ret := @Ok;
  mbind := @bind
}.

Definition io_bind {A B : Type} (m : io A) (k : A -> io B) : io B :=
  match m with
  | (out, Ok a) => let (out', r) := k a in (out ++ out', r)
  | (out, Raise e) => (out, Raise e)
  end.

#[export] Instance Monad_io : Monad io := {
  ret := fun A a => ([], Ok a);
  mbind := @io_bind
}.

Notation "x <- m ;; k" := (mbind m (fun x => k))
  (at level 61, m at next level, right associativity).
Notation "' pat <- m ;; k" := (mbind m (fun x => match x with pat => k end))
  (at level 61, pat pattern, m at next level, right associativity).
Notation "m ;; k" := (mbind m (fun _ => k))
  (at level 61, right associativity).

Definition lift {A : Type} (r : res A) : io A := ([], r).

Definition print (to : stream) (template : string) (args : list arg) : io unit :=
  ([mkline to template args], Ok tt).

(** [sys.exit(status)] raises [SystemExit]. *)
Definition sys_exit {A : Type} (status : Z) : io A := ([], Raise (SystemExit status)).

(** [try]/[except] around a printing computation: what the body printed
    before it raised stays printed. *)
Definition io_try {A : Type} (body : io A) (handler : exn -> option (io A)) : io A :=
  match body with
  | (out, Ok a) => (out, Ok a)
  | (out, Raise e) =>
      match handler e with
      | Some h => let (out', r) := h in (out ++ out', r)
      | None => (out, Raise e)
      end
  end.

(** The status the interpreter exits with: 0 when the script runs to its
    end, the argument of [sys.exit], and 1 after an uncaught exception. *)
Definition exit_status {A : Type} (r : res A) : Z :=
  match r with
  | Ok _ => 0
  | Raise (SystemExit status) => status
  | Raise _ => 1
  end.

(** *** Constants and messages *)

Definition DATE_FMT : string := "%m/%d/%Y".

Definition dquote : string := String (ascii_of_nat 34) EmptyString.
Definition newline : string := String (ascii_of_nat 10) EmptyString.

(** The text [Missing "usageMonths" field], with its quotation marks. *)
Definition missing_usageMonths_msg : string :=
  ("Missing " ++ dquote ++ "usageMonths" ++ dquote ++ " field")%string.

(** The dictionary [parse_usage_data] returns. *)
Record usage : Type := mkusage {
  used : float;
  total : float;
  units : value;
  start_date : datetime;
  end_date : datetime;
  cur_date : datetime
}.

Section Script.

(** The host the script runs on: its local time zone, the file system and
    TOML loader behind [open]/[toml.load], and the scraper behind
    [XfinityUsage(...).run()]. *)
Variable utcoffset : Z -> Z.
Variable load_config : string -> res value.
Variable xfinity_usage_run : value -> value -> string -> res value.

Definition get_usage_data (username password : value) : res value :=
  xfinity_usage_run username password "firefox-headless".

Definition parse_usage_data (usage_data : value) : res usage :=
  ' (used, total, units) <-
    try_except
      (used <- (v <- getitem usage_data "used" ;; to_float v) ;;
       total <- (v <- getitem usage_data "total" ;; to_float v) ;;
       units <- getitem usage_data "units" ;;
       ret (used, total, units))
      (fun e =>
         match e with
         | KeyError => Some (Raise (RuntimeError "Missing usage field"))
         | ValueError => Some (Raise (RuntimeError "Invalid float for usage"))
         | _ => None
         end) ;;
  last_month <-
    try_except
      (raw <- getitem usage_data "raw" ;;
       months <- getitem raw "usageMonths" ;;
       getitem_last months)
      (fun e =>
         match e with
         | KeyError => Some (Raise (RuntimeError missing_usageMonths_msg))
         | IndexError => Some (Raise (RuntimeError "No month data found"))
         | _ => None
         end) ;;
  ' (start_date, end_date) <-
    try_except
      (start_date <- (v <- getitem last_month "startDate" ;; strptime v DATE_FMT) ;;
       end_date <- (v <- getitem last_month "endDate" ;; strptime v DATE_FMT) ;;
       ret (start_date, end_date))
      (fun e =>
         match e with
         | KeyError => Some (Raise (RuntimeError "Missing start and end date"))
         | ValueError => Some (Raise (RuntimeError "Failed to decode date range"))
         | _ => None
         end) ;;
  cur_date <-
    try_except
      (v <- getitem usage_data "data_timestamp" ;; fromtimestamp utcoffset v)
      (fun e =>
         match e with
         | KeyError => Some (Raise (RuntimeError "Missing start and end date"))
         | ValueError => Some (Raise (RuntimeError "Failed to decode current date"))
         | _ => None
         end) ;;
  ret (mkusage used total units start_date end_date cur_date).

(** The four quantities [main] computes from the parsed data, under the
    names of its local variables. *)
Definition month_hours (data : usage) : res float :=
  secs <- total_seconds (sub (end_date data) (start_date data)) ;;
  hours <- truediv secs 3600 ;;
  ret (hours + 24)%float.

Definition cur_hours (data : usage) : res float :=
  secs <- total_seconds (sub (cur_date data) (start_date data)) ;;
  truediv secs 3600.

Definition percent_elapsed (data : usage) : res float :=
  month_hours <- month_hours data ;;
  cur_hours <- cur_hours data ;;
  ratio <- truediv cur_hours month_hours ;;
  ret (ratio * 100)%float.

Definition percent_bw (data : usage) : res float :=
  ratio <- truediv (used data) (total data) ;;
  ret (ratio * 100)%float.

Definition main (config_file : string) : io unit :=
  ' (username, password) <-
    io_try
      (cfg <- lift (load_config config_file) ;;
       username <- lift (getitem cfg "username") ;;
       password <- lift (getitem cfg "password") ;;
       ret (username, password))
      (fun e =>
         match e with
         | OSError _ =>
             Some (print stderr "Failed to read config file: {}" [AExn e] ;; sys_exit 0)
         | KeyError =>
             Some (print stderr "Missing username or password in config file" [] ;; sys_exit 0)
         | _ => None
         end) ;;
  print stdout "Requesting usage data..." [] ;;
  raw_usage_data <-
    io_try
      (lift (get_usage_data username password))
      (fun e =>
         match e with
         | RuntimeError _ =>
             Some (print stdout "Failed to fetch usage data: {}" [AExn e] ;; sys_exit 0)
         | _ => None
         end) ;;
  print stdout "Parsing usage data..." [] ;;
  (* After this statement the local [data] is bound only if the body ran
     to its end: the handler prints and falls through. *)
  data <-
    io_try
      (data <- lift (parse_usage_data raw_usage_data) ;; ret (Some data))
      (fun e =>
         match e with
         | RuntimeError _ =>
             Some (print stdout "Failed to parse usage data: {}" [AExn e] ;; ret None)
         | _ => None
         end) ;;
  data <- lift (match data with
                | Some data => Ok data
                | None => Raise UnboundLocalError
                end) ;;
  percent_elapsed <- lift (percent_elapsed data) ;;
  percent_bw <- lift (percent_bw data) ;;
  print stdout (newline ++ "Summary:")%string [] ;;
  print stdout "  Policy elapsed:     {elapse:.2f}%" [AFixed2 percent_elapsed] ;;
  int_used <- lift (int_of_float (used data)) ;;
  int_total <- lift (int_of_float (total data)) ;;
  print stdout "  Bandwidth consumed: {per_bw:.2f}% ({used}{units}/{total}{units})"
        [AFixed2 percent_bw; AInt int_used; AInt int_total; AValue (units data)].

(** *** The stages of the parser, as the specification lists them

    Each stage is a check of the raw record on its own; a stage whose
    input an earlier stage could not produce has nothing to report. *)

Inductive stage : Type :=
| UsedTotal | Units | MonthsPresent | MonthsNonEmpty | DateFields | Timestamp.

Definition stages : list stage :=
  [UsedTotal; Units; MonthsPresent; MonthsNonEmpty; DateFields; Timestamp].

Definition usage_error (e : exn) : exn :=
  match e with
  | KeyError => RuntimeError "Missing usage field"
  | ValueError => RuntimeError "Invalid float for usage"
  | _ => e
  end.

Definition months_error (e : exn) : exn :=
  match e with
  | KeyError => RuntimeError missing_usageMonths_msg
  | IndexError => RuntimeError "No month data found"
  | _ => e
  end.

Definition date_error (e : exn) : exn :=
  match e with
  | KeyError => RuntimeError "Missing start and end date"
  | ValueError => RuntimeError "Failed to decode date range"
  | _ => e
  end.

Definition timestamp_error (e : exn) : exn :=
  match e with
  | KeyError => RuntimeError "Missing start and end date"
  | ValueError => RuntimeError "Failed to decode current date"
  | _ => e
  end.

Definition failure {A : Type} (translate : exn -> exn) (r : res A) : option exn :=
  match r with
  | Ok _ => None
  | Raise e => Some (translate e)
  end.

Definition first_of (a b : option exn) : option exn :=
  match a with
  | Some e => Some e
  | None => b
  end.

Definition float_field (usage_data : value) (key : string) : res float :=
  v <- getitem usage_data key ;; to_float v.

Definition usageMonths (usage_data : value) : res value :=
  raw <- getitem usage_data "raw" ;; getitem raw "usageMonths".

Definition date_field (last_month : value) (key : string) : res datetime :=
  v <- getitem last_month key ;; strptime v DATE_FMT.

Definition stage_failure (st : stage) (usage_data : value) : option exn :=
  match st with
  | UsedTotal =>
      first_of (failure usage_error (float_field usage_data "used"))
               (failure usage_error (float_field usage_data "total"))
  | Units => failure usage_error (getitem usage_data "units")
  | MonthsPresent => failure months_error (usageMonths usage_data)
  | MonthsNonEmpty =>
      match usageMonths usage_data with
      | Ok months => failure months_error (getitem_last months)
      | Raise _ => None
      end
  | DateFields =>
      match (months <- usageMonths usage_data ;; getitem_last months) with
      | Ok last_month =>
          first_of (failure date_error (date_field last_month "startDate"))
                   (failure date_error (date_field last_month "endDate"))
      | Raise _ => None
      end
  | Timestamp =>
      failure timestamp_error
              (v <- getitem usage_data "data_timestamp" ;; fromtimestamp utcoffset v)
  end.

(** The first stage of a list that reports a failure. *)
Fixpoint earliest_failure (sts : list stage) (usage_data : value) : option (stage * exn) :=
  match sts with
  | [] => None
  | st :: sts' =>
      match stage_failure st usage_data with
      | Some e => Some (st, e)
      | None => earliest_failure sts' usage_data
      end
  end.

Definition stages_before (st : stage) : list stage :=
  match st with
  | UsedTotal => []
  | Units => [UsedTotal]
  | MonthsPresent => [UsedTotal; Units]
  | MonthsNonEmpty => [UsedTotal; Units; MonthsPresent]
  | DateFields => [UsedTotal; Units; MonthsPresent; MonthsNonEmpty]
  | Timestamp => [UsedTotal; Units; MonthsPresent; MonthsNonEmpty; DateFields]
  end.

(** The record passes every stage that precedes [st]. *)
Definition passes_before (st : stage) (usage_data : value) : bool :=
  forallb (fun st' => match stage_failure st' usage_data with
                      | None => true
                      | Some _ => false
                      end)
          (stages_before st).

(** *** The paths of a run *)

Definition credentials (cfg : value) : res (value * value) :=
  username <- getitem cfg "username" ;;
  password <- getitem cfg "password" ;;
  ret (username, password).

(** The configuration file cannot be read, or lacks a key. *)
Definition config_error (config_file : string) : Prop :=
  (exists msg, load_config config_file = Raise (OSError msg)) \/
  (exists cfg, load_config config_file = Ok cfg /\ credentials cfg = Raise KeyError).

(** The scraper is reached and returns this. *)
Definition fetched (config_file : string) (r : res value) : Prop :=
  exists cfg username password,
    load_config config_file = Ok cfg /\
    credentials cfg = Ok (username, password) /\
    get_usage_data username password = r.

Definition fetch_error (config_file : string) : Prop :=
  exists msg, fetched config_file (Raise (RuntimeError msg)).

(** The record is fetched and parsed into [data]. *)
Definition parsed (config_file : string) (data : usage) : Prop :=
  exists usage_data,
    fetched config_file (Ok usage_data) /\ parse_usage_data usage_data = Ok data.

(** The record is fetched and the parser raises [RuntimeError]. *)
Definition parse_error (config_file : string) (msg : string) : Prop :=
  exists usage_data,
    fetched config_file (Ok usage_data) /\
    parse_usage_data usage_data = Raise (RuntimeError msg).

(** The record is parsed and every expression of the summary evaluates. *)
Definition summary_computed (config_file : string) : Prop :=
  exists data pe pb iu it,
    parsed config_file data /\
    percent_elapsed data = Ok pe /\ percent_bw data = Ok pb /\
    int_of_float (used data) = Ok iu /\ int_of_float (total data) = Ok it.

End Script.

(** The first two lines every run prints once the configuration is read
    and the record fetched. *)
Definition progress_lines : list line :=
  [mkline stdout "Requesting usage data..." []; mkline stdout "Parsing usage data..." []].

(** The run ends in an exception nothing caught (the interpreter prints a
    traceback); [sys.exit] is not one. *)
Definition uncaught {A : Type} (r : res A) : bool :=
  match r with
  | Ok _ => false
  | Raise (SystemExit _) => false
  | Raise _ => true
  end.

(** The specification quotes the messages in lower case and without the
    quotation marks of the text: messages are compared up to that. *)
Definition casefold (s : string) : string :=
  string_of_list_ascii
    (map lower (filter (fun c => negb (Ascii.eqb c (ascii_of_nat 34))) (list_ascii_of_string s))).

Definition reported_as {A : Type} (r : res A) (wording : string) : Prop :=
  exists msg, r = Raise (RuntimeError msg) /\ casefold msg = casefold wording.

(** *** Sample hosts and records *)

Definition utc : Z -> Z := fun _ => 0.

Definition config_ok : string -> res value :=
  fun _ => Ok (VDict [("username", VStr "user"); ("password", VStr "secret")]).

Definition config_missing : string -> res value :=
  fun _ => Raise (OSError "[Errno 2] No such file or directory").

Definition returns (usage_data : value) : value -> value -> string -> res value :=
  fun _ _ _ => Ok usage_data.

Definition month (startDate endDate : string) : value :=
  VDict [("startDate", VStr startDate); ("endDate", VStr endDate)].

(** A record as the scraper returns it; 1705276800 is 01/15/2024 00:00 UTC. *)
Definition record (used total : value) (months : list value) : list (string * value) :=
  [("used", used); ("total", total); ("units", VStr "GB");
   ("raw", VDict [("usageMonths", VList months)]);
   ("data_timestamp", VInt 1705276800)].

(** The dictionary without a key. *)
Definition without (key : string) (d : list (string * value)) : list (string * value) :=
  filter (fun kv => negb (String.eqb key (fst kv))) d.

Definition january : list value :=
  [month "12/01/2023" "12/31/2023"; month "01/01/2024" "01/31/2024"].

Definition january_usage (used total : float) : usage :=
  mkusage used total (VStr "GB")
          (mkdatetime 2024 1 1 0 0 0 0) (mkdatetime 2024 1 31 0 0 0 0)
          (mkdatetime 2024 1 15 0 0 0 0).

(** The January cycle read at another instant. *)
Definition january_at (cur_date : datetime) : usage :=
  mkusage 50 100 (VStr "GB")
          (mkdatetime 2024 1 1 0 0 0 0) (mkdatetime 2024 1 31 0 0 0 0) cur_date.

(** The lines of the summary. *)
Definition summary_lines (percent_elapsed percent_bw : float) (used total : Z) (units : value)
  : list line :=
  [mkline stdout (newline ++ "Summary:")%string [];
   mkline stdout "  Policy elapsed:     {elapse:.2f}%" [AFixed2 percent_elapsed];
   mkline stdout "  Bandwidth consumed: {per_bw:.2f}% ({used}{units}/{total}{units})"
          [AFixed2 percent_bw; AInt used; AInt total; AValue units]].

(** The texts of the [RuntimeError]s that [parse_usage_data] raises. *)
Definition parser_messages : list string :=
  ["Missing usage field"; "Invalid float for usage"; missing_usageMonths_msg;
   "No month data found"; "Missing start and end date"; "Failed to decode date range";
   "Failed to decode current date"].

(** A valid calendar day with no time of day. *)
Definition calendar_midnight (t : datetime) : Prop :=
  1 <= year t <= 9999 /\ 1 <= Datetime.month t <= 12 /\
  1 <= day t <= days_in_month (year t) (Datetime.month t) /\
  hour t = 0 /\ minute t = 0 /\ second t = 0 /\ microsecond t = 0.

(** A collaborator that raises. *)
Definition config_raising (e : exn) : string -> res value := fun _ => Raise e.

Definition raising (e : exn) : value -> value -> string -> res value := fun _ _ _ => Raise e.

(** A scraper that answers only for the browser it is asked to drive. *)
Definition returns_for (browser : string) (usage_data : value)
  : value -> value -> string -> res value :=
  fun _ _ b => if String.eqb b browser then Ok usage_data
               else Raise (OtherException "WebDriverException").

End CheckUsage.

Example float_examples :
  Py.to_float (Py.VStr "50") = Py.Ok 50%float /\
  Py.to_float (Py.VStr " 0.1 ") = Py.Ok 0.1%float /\
  Py.to_float (Py.VStr "-1_0.25e-1") = Py.Ok (-1.025)%float /\
  Py.to_float (Py.VStr "1e400") = Py.Ok infinity /\
  Py.to_float (Py.VStr "abc") = Py.Raise Py.ValueError /\
  Py.to_float (Py.VStr "1e") = Py.Raise Py.ValueError /\
  Py.to_float (Py.VStr "1__0") = Py.Raise Py.ValueError /\
  Py.to_float (Py.VStr ".") = Py.Raise Py.ValueError /\
  Py.to_float (Py.VStr "5.") = Py.Ok 5%float /\
  Py.to_float (Py.VStr "2.2250738585072014e-308") = Py.Ok 2.2250738585072014e-308%float /\
  Py.to_float (Py.VStr "4.9e-324") = Py.Ok 4.9e-324%float /\
  Py.to_float (Py.VStr "9007199254740993") = Py.Ok 9007199254740992%float /\
  Py.to_float (Py.VInt 9007199254740995) = Py.Ok 9007199254740996%float /\
  Py.int_truediv 1 3 = Py.Ok (1 / 3)%float /\
  Py.int_truediv 2592000000000 1000000 = Py.Ok 2592000%float /\
  Py.to_float (Py.VInt (10 ^ 400)) = Py.Raise Py.OverflowError /\
  Py.int_of_float (-7.9)%float = Py.Ok (-7) /\
  Py.to_float Py.VNone = Py.Raise Py.TypeError.
Proof. repeat split; vm_compute; reflexivity. Qed.

Example datetime_examples :
  let utc := fun _ : Z => 0 in
  Datetime.strptime (Py.VStr "01/31/2024") "%m/%d/%Y" = Py.Ok (Datetime.mkdatetime 2024 1 31 0 0 0 0) /\
  Datetime.strptime (Py.VStr "1/5/2024") "%m/%d/%Y" = Py.Ok (Datetime.mkdatetime 2024 1 5 0 0 0 0) /\
  Datetime.strptime (Py.VStr "02/30/2024") "%m/%d/%Y" = Py.Raise Py.ValueError /\
  Datetime.strptime (Py.VStr "02/29/2023") "%m/%d/%Y" = Py.Raise Py.ValueError /\
  Datetime.strptime (Py.VStr "13/01/2024") "%m/%d/%Y" = Py.Raise Py.ValueError /\
  Datetime.strptime (Py.VStr "01/31/20245") "%m/%d/%Y" = Py.Raise Py.ValueError /\
  Datetime.strptime (Py.VStr "2024-01-31") "%m/%d/%Y" = Py.Raise Py.ValueError /\
  Datetime.strptime (Py.VInt 5) "%m/%d/%Y" = Py.Raise Py.TypeError /\
  Datetime.toordinal (Datetime.mkdatetime 1970 1 1 0 0 0 0) = 719163 /\
  Datetime.toordinal (Datetime.mkdatetime 2024 1 31 0 0 0 0) = 738916 /\
  Datetime.ord2ymd 738916 = (2024, 1, 31) /\
  Datetime.ord2ymd 738945 = (2024, 2, 29) /\
  Datetime.ord2ymd 738946 = (2024, 3, 1) /\
  Datetime.ord2ymd 739251 = (2024, 12, 31) /\
  Datetime.fromtimestamp utc (Py.VInt 1705276800) = Py.Ok (Datetime.mkdatetime 2024 1 15 0 0 0 0) /\
  Datetime.fromtimestamp utc (Py.VFloat 1705276800.75) = Py.Ok (Datetime.mkdatetime 2024 1 15 0 0 0 750000) /\
  Datetime.fromtimestamp utc (Py.VFloat (-0.25)) = Py.Ok (Datetime.mkdatetime 1969 12 31 23 59 59 750000) /\
  Datetime.fromtimestamp (fun _ => -18000) (Py.VInt 1705276800) = Py.Ok (Datetime.mkdatetime 2024 1 14 19 0 0 0) /\
  Datetime.fromtimestamp utc (Py.VInt (10 ^ 12)) = Py.Raise Py.ValueError /\
  Datetime.fromtimestamp utc (Py.VFloat nan) = Py.Raise Py.ValueError /\
  Datetime.fromtimestamp utc (Py.VStr "1705276800") = Py.Raise Py.TypeError.
Proof. repeat split; vm_compute; reflexivity. Qed.

(** * Verification *)

Import Py Datetime CheckUsage.

(** ** The parser, stage by stage *)

Ltac caught := match goal with e : exn |- _ => destruct e; reflexivity end.

(** Each [try] block of [parse_usage_data] either yields its values or
    raises the exception its handlers make of the first failure. *)
Lemma parse_usage_data_stages (utcoffset : Z -> Z) (usage_data : value) :
  parse_usage_data utcoffset usage_data =
  match float_field usage_data "used" with
  | Raise e => Raise (usage_error e)
  | Ok used =>
  match float_field usage_data "total" with
  | Raise e => Raise (usage_error e)
  | Ok total =>
  match getitem usage_data "units" with
  | Raise e => Raise (usage_error e)
  | Ok units =>
  match usageMonths usage_data with
  | Raise e => Raise (months_error e)
  | Ok months =>
  match getitem_last months with
  | Raise e => Raise (months_error e)
  | Ok last_month =>
  match date_field last_month "startDate" with
  | Raise e => Raise (date_error e)
  | Ok start_date =>
  match date_field last_month "endDate" with
  | Raise e => Raise (date_error e)
  | Ok end_date =>
  match (v <- getitem usage_data "data_timestamp" ;; fromtimestamp utcoffset v) with
  | Raise e => Raise (timestamp_error e)
  | Ok cur_date => Ok (mkusage used total units start_date end_date cur_date)
  end end end end end end end end.
Proof.
  unfold parse_usage_data, float_field, usageMonths, date_field.
  cbn [mbind Monad_res ret bind].
  destruct (getitem usage_data "used") as [v|e]; cbn [bind try_except]; [|caught].
  destruct (to_float v) as [used|e]; cbn [bind try_except]; [|caught].
  destruct (getitem usage_data "total") as [v'|e]; cbn [bind try_except]; [|caught].
  destruct (to_float v') as [total|e]; cbn [bind try_except]; [|caught].
  destruct (getitem usage_data "units") as [units|e]; cbn [bind try_except]; [|caught].
  destruct (getitem usage_data "raw") as [raw|e]; cbn [bind try_except]; [|caught].
  destruct (getitem raw "usageMonths") as [months|e]; cbn [bind try_except]; [|caught].
  destruct (getitem_last months) as [last_month|e]; cbn [bind try_except]; [|caught].
  destruct (getitem last_month "startDate") as [sd|e]; cbn [bind try_except]; [|caught].
  destruct (strptime sd DATE_FMT) as [start_date|e]; cbn [bind try_except]; [|caught].
  destruct (getitem last_month "endDate") as [ed|e]; cbn [bind try_except]; [|caught].
  destruct (strptime ed DATE_FMT) as [end_date|e]; cbn [bind try_except]; [|caught].
  destruct (getitem usage_data "data_timestamp") as [ts|e]; cbn [bind try_except]; [|caught].
  destruct (fromtimestamp utcoffset ts) as [cur_date|e]; cbn [bind try_except]; [|caught].
  reflexivity.
Qed.

(** A stage that reports nothing ran to its end. *)
Lemma failure_none {A : Type} (translate : exn -> exn) (r : res A) :
  failure translate r = None -> exists a, r = Ok a.
Proof. destruct r as [a|e]; [eauto | discriminate]. Qed.

Lemma first_of_none (a b : option exn) :
  first_of a b = None -> a = None /\ b = None.
Proof. destruct a; [discriminate | auto]. Qed.

(** What passing the stages before a given one provides. *)
Lemma passes_usage_fields (utcoffset : Z -> Z) (usage_data : value) :
  passes_before utcoffset MonthsPresent usage_data = true ->
  exists used total units,
    float_field usage_data "used" = Ok used /\
    float_field usage_data "total" = Ok total /\
    getitem usage_data "units" = Ok units.
Proof.
  unfold passes_before; cbn [stages_before forallb stage_failure].
  destruct (first_of _ _) eqn:E1; [discriminate|].
  destruct (failure usage_error (getitem usage_data "units")) eqn:E2; [discriminate|].
  intros _.
  apply first_of_none in E1 as [Eu Et].
  apply failure_none in Eu as [u ->], Et as [t ->], E2 as [un ->].
  exists u, t, un; auto.
Qed.

Lemma passes_last_month (utcoffset : Z -> Z) (usage_data : value) :
  passes_before utcoffset DateFields usage_data = true ->
  passes_before utcoffset MonthsPresent usage_data = true /\
  exists months last_month,
    usageMonths usage_data = Ok months /\ getitem_last months = Ok last_month.
Proof.
  unfold passes_before; cbn [stages_before forallb stage_failure].
  destruct (first_of _ _); [discriminate|].
  destruct (failure usage_error (getitem usage_data "units")); [discriminate|].
  destruct (usageMonths usage_data) as [months|e]; cbn [failure]; [|discriminate].
  destruct (getitem_last months) as [lm|e] eqn:El; cbn [failure]; [|discriminate].
  intros _; split; [reflexivity | exists months, lm; auto].
Qed.

Lemma passes_dates (utcoffset : Z -> Z) (usage_data : value) :
  passes_before utcoffset Timestamp usage_data = true ->
  passes_before utcoffset DateFields usage_data = true /\
  exists months last_month start_date end_date,
    usageMonths usage_data = Ok months /\ getitem_last months = Ok last_month /\
    date_field last_month "startDate" = Ok start_date /\
    date_field last_month "endDate" = Ok end_date.
Proof.
  unfold passes_before; cbn [stages_before forallb stage_failure mbind Monad_res].
  destruct (first_of _ _); [discriminate|].
  destruct (failure usage_error (getitem usage_data "units")); [discriminate|].
  destruct (usageMonths usage_data) as [months|e]; cbn [failure bind]; [|discriminate].
  destruct (getitem_last months) as [lm|e] eqn:El; cbn [failure]; [|discriminate].
  destruct (first_of _ _) eqn:E; [discriminate|].
  intros _; split; [reflexivity|].
  apply first_of_none in E as [Es Ee].
  apply failure_none in Es as [sd Es], Ee as [ed Ee].
  exists months, lm, sd, ed; auto.
Qed.

Ltac stage_done :=
  cbn [earliest_failure stage_failure first_of failure mbind Monad_res bind];
  repeat split;
  unfold passes_before;
  cbn [stages_before forallb stage_failure first_of failure mbind Monad_res bind];
  repeat match goal with
         | H : _ = Ok _ |- _ => rewrite H; clear H; cbn [first_of failure bind]
         | H : _ = Raise _ |- _ => rewrite H; clear H; cbn [first_of failure bind]
         end;
  reflexivity.

(** C6: whatever is wrong with a record, the parser raises what the
    earliest failing stage reports, in the order used/total, units,
    usageMonths present, usageMonths non-empty, date fields, timestamp:
    every stage before it passes; and the parser returns a result exactly
    when no stage fails. *)
Theorem parse_reports_earliest_stage (utcoffset : Z -> Z) (usage_data : value) :
  match earliest_failure utcoffset stages usage_data with
  | Some (st, e) =>
      parse_usage_data utcoffset usage_data = Raise e /\
      stage_failure utcoffset st usage_data = Some e /\
      passes_before utcoffset st usage_data = true
  | None => exists data, parse_usage_data utcoffset usage_data = Ok data
  end.
Proof.
  rewrite parse_usage_data_stages.
  unfold stages.
  cbn [earliest_failure stage_failure mbind Monad_res].
  destruct (float_field usage_data "used") as [used|e] eqn:Eu; [|stage_done].
  destruct (float_field usage_data "total") as [total|e] eqn:Et; [|stage_done].
  destruct (getitem usage_data "units") as [units|e] eqn:En; [|stage_done].
  destruct (usageMonths usage_data) as [months|e] eqn:Em; [|stage_done].
  cbn [bind].
  destruct (getitem_last months) as [last_month|e] eqn:El; [|stage_done].
  destruct (date_field last_month "startDate") as [start_date|e] eqn:Es; [|stage_done].
  destruct (date_field last_month "endDate") as [end_date|e] eqn:Ee; [|stage_done].
  destruct (bind (getitem usage_data "data_timestamp") _) as [cur_date|e] eqn:Ec; [|stage_done].
  cbn [first_of failure]. eauto.
Qed.

(** The last element of a list, read with [-1]. *)
Lemma getitem_last_list (months last_month : value) :
  getitem_last months = Ok last_month ->
  (exists d, last_month = VDict d) ->
  exists front, months = VList (front ++ [last_month]).
Proof.
  intros H [d ->].
  destruct months as [| | | |s|l|]; cbn in H; try discriminate.
  - destruct (last_char s); discriminate.
  - destruct (rev l) as [|v tl] eqn:E; [discriminate|].
    injection H as ->. exists (rev tl).
    rewrite <- (rev_involutive l), E. reflexivity.
Qed.

Lemma getitem_ok_dict (obj v : value) (key : string) :
  getitem obj key = Ok v -> exists d, obj = VDict d.
Proof. destruct obj; cbn; try discriminate; eauto. Qed.

(** C4: when the parser succeeds, [used] and [total] are [float] of the
    raw fields of those names, [units] is the raw [units] field, the two
    dates are [strptime] under the month/day/year format of the
    [startDate] and [endDate] of the last element of
    [raw.usageMonths], and [cur_date] is [fromtimestamp] of
    [data_timestamp]. *)
Theorem parsed_usage_fields (utcoffset : Z -> Z) (usage_data : value) (data : usage) :
  parse_usage_data utcoffset usage_data = Ok data ->
  (exists v, getitem usage_data "used" = Ok v /\ to_float v = Ok (used data)) /\
  (exists v, getitem usage_data "total" = Ok v /\ to_float v = Ok (total data)) /\
  getitem usage_data "units" = Ok (units data) /\
  (exists raw front last_month sd ed,
      getitem usage_data "raw" = Ok raw /\
      getitem raw "usageMonths" = Ok (VList (front ++ [last_month])) /\
      getitem last_month "startDate" = Ok sd /\
      getitem last_month "endDate" = Ok ed /\
      DATE_FMT = "%m/%d/%Y" /\
      strptime sd DATE_FMT = Ok (start_date data) /\
      strptime ed DATE_FMT = Ok (end_date data)) /\
  (exists ts, getitem usage_data "data_timestamp" = Ok ts /\
              fromtimestamp utcoffset ts = Ok (cur_date data)).
Proof.
  rewrite parse_usage_data_stages.
  unfold float_field, usageMonths, date_field; cbn [mbind Monad_res bind].
  destruct (getitem usage_data "used") as [vu|e]; cbn [bind]; [|discriminate].
  destruct (to_float vu) as [u|e] eqn:Eu; [|discriminate].
  destruct (getitem usage_data "total") as [vt|e]; cbn [bind]; [|discriminate].
  destruct (to_float vt) as [t|e] eqn:Et; [|discriminate].
  destruct (getitem usage_data "units") as [un|e]; [|discriminate].
  destruct (getitem usage_data "raw") as [raw|e]; cbn [bind]; [|discriminate].
  destruct (getitem raw "usageMonths") as [months|e] eqn:Em; [|discriminate].
  destruct (getitem_last months) as [lm|e] eqn:El; [|discriminate].
  destruct (getitem lm "startDate") as [sd|e] eqn:Es; cbn [bind]; [|discriminate].
  destruct (strptime sd DATE_FMT) as [d1|e] eqn:E1; [|discriminate].
  destruct (getitem lm "endDate") as [ed|e] eqn:Ee; cbn [bind]; [|discriminate].
  destruct (strptime ed DATE_FMT) as [d2|e] eqn:E2; [|discriminate].
  destruct (getitem usage_data "data_timestamp") as [ts|e]; cbn [bind]; [|discriminate].
  destruct (fromtimestamp utcoffset ts) as [cd|e] eqn:Ec; [|discriminate].
  intros [= <-]; cbn [used total units start_date end_date cur_date].
  destruct (getitem_last_list _ _ El (getitem_ok_dict _ _ _ Es)) as [front ->].
  split. { exists vu; auto. }
  split. { exists vt; auto. }
  split. { reflexivity. }
  split.
  - exists raw, front, lm, sd, ed; auto 10.
  - exists ts; auto.
Qed.

Lemma parsed_usage_fields_witness :
  parse_usage_data utc (VDict (record (VStr "50") (VStr "100") january))
    = Ok (january_usage 50 100) /\
  getitem (VDict (record (VStr "50") (VStr "100") january)) "units"
    = Ok (units (january_usage 50 100)).
Proof.
  split; [vm_compute; reflexivity|].
  refine (proj1 (proj2 (proj2 (parsed_usage_fields utc
                   (VDict (record (VStr "50") (VStr "100") january))
                   (january_usage 50 100) _)))).
  vm_compute; reflexivity.
Defined.

(** C7: a record that passes every earlier stage and has no
    [data_timestamp] is refused with "Missing start and end date", the
    very result of a record whose last month lacks [startDate] or
    [endDate]. *)
Theorem missing_timestamp_message (utcoffset : Z -> Z) (usage_data : value) :
  passes_before utcoffset Timestamp usage_data = true ->
  getitem usage_data "data_timestamp" = Raise KeyError ->
  parse_usage_data utcoffset usage_data = Raise (RuntimeError "Missing start and end date") /\
  reported_as (parse_usage_data utcoffset usage_data) "missing start and end date" /\
  forall other last_month,
    passes_before utcoffset DateFields other = true ->
    (months <- usageMonths other ;; getitem_last months) = Ok last_month ->
    getitem last_month "startDate" = Raise KeyError \/
    (exists d, date_field last_month "startDate" = Ok d /\
               getitem last_month "endDate" = Raise KeyError) ->
    parse_usage_data utcoffset other = parse_usage_data utcoffset usage_data.
Proof.
  intros Hp Hts.
  assert (Hmsg : parse_usage_data utcoffset usage_data
                 = Raise (RuntimeError "Missing start and end date")).
  { rewrite parse_usage_data_stages.
    destruct (passes_dates _ _ Hp) as [Hp' (months & lm & sd & ed & -> & -> & -> & ->)].
    destruct (passes_last_month _ _ Hp') as [Hp'' _].
    destruct (passes_usage_fields _ _ Hp'') as (u & t & un & -> & -> & ->).
    cbn [mbind Monad_res bind]. rewrite Hts. reflexivity. }
  split; [exact Hmsg|]. split.
  { exists "Missing start and end date". split; [exact Hmsg | vm_compute; reflexivity]. }
  intros other lm Hq Hlm Hdate.
  rewrite Hmsg, parse_usage_data_stages.
  destruct (passes_last_month _ _ Hq) as [Hq' (months & lm' & Em & El)].
  destruct (passes_usage_fields _ _ Hq') as (u & t & un & -> & -> & ->).
  cbn [mbind Monad_res] in Hlm. rewrite Em in *. cbn [bind] in Hlm.
  rewrite Hlm. unfold date_field in *; cbn [mbind Monad_res] in *.
  destruct Hdate as [-> | (d & -> & ->)]; reflexivity.
Qed.

Lemma missing_timestamp_message_witness :
  let usage_data := VDict (without "data_timestamp" (record (VStr "50") (VStr "100") january)) in
  getitem usage_data "data_timestamp" = Raise KeyError /\
  parse_usage_data utc usage_data = Raise (RuntimeError "Missing start and end date").
Proof.
  split; [vm_compute; reflexivity|].
  refine (proj1 (missing_timestamp_message utc
                   (VDict (without "data_timestamp" (record (VStr "50") (VStr "100") january)))
                   _ _));
    vm_compute; reflexivity.
Defined.

(** ** Messages of the individual stages *)

(** C8, as amended: when [used] is present and [float] refuses it with
    [ValueError], or [used] converts and [total] is present and refused
    with [ValueError], the parser raises "Invalid float for usage" and
    returns no result. *)
Theorem invalid_float_message (utcoffset : Z -> Z) (usage_data : value) :
  (exists v, getitem usage_data "used" = Ok v /\ to_float v = Raise ValueError) \/
  (exists v f w, getitem usage_data "used" = Ok v /\ to_float v = Ok f /\
                 getitem usage_data "total" = Ok w /\ to_float w = Raise ValueError) ->
  parse_usage_data utcoffset usage_data = Raise (RuntimeError "Invalid float for usage") /\
  reported_as (parse_usage_data utcoffset usage_data) "invalid float for usage" /\
  (forall data, parse_usage_data utcoffset usage_data <> Ok data).
Proof.
  intros H.
  assert (Hmsg : parse_usage_data utcoffset usage_data
                 = Raise (RuntimeError "Invalid float for usage")).
  { rewrite parse_usage_data_stages. unfold float_field; cbn [mbind Monad_res].
    destruct H as [(v & -> & Hv) | (v & f & w & -> & Hv & -> & Hw)]; cbn [bind].
    - rewrite Hv. reflexivity.
    - rewrite Hv, Hw. reflexivity. }
  split; [exact Hmsg|]. split.
  - exists "Invalid float for usage". split; [exact Hmsg | vm_compute; reflexivity].
  - intros data. rewrite Hmsg. discriminate.
Qed.

Lemma invalid_float_message_witness :
  let usage_data := VDict (record (VStr "50") (VStr "lots") january) in
  to_float (VStr "lots") = Raise ValueError /\
  parse_usage_data utc usage_data = Raise (RuntimeError "Invalid float for usage").
Proof.
  split; [vm_compute; reflexivity|].
  refine (proj1 (invalid_float_message utc
                   (VDict (record (VStr "50") (VStr "lots") january)) _)).
  right. exists (VStr "50"), 50%float, (VStr "lots").
  split; [|split; [|split]]; vm_compute; reflexivity.
Defined.

(** C8 as stated fails: here [total] is present and not convertible, yet
    [used] is missing and that is what the parser reports. *)
Lemma invalid_total_behind_missing_used :
  let usage_data := VDict (without "used" (record (VStr "50") (VStr "lots") january)) in
  (exists w, getitem usage_data "total" = Ok w /\ to_float w = Raise ValueError) /\
  parse_usage_data utc usage_data = Raise (RuntimeError "Missing usage field") /\
  parse_usage_data utc usage_data <> Raise (RuntimeError "Invalid float for usage").
Proof.
  cbv zeta. split; [|split].
  - exists (VStr "lots"). split; vm_compute; reflexivity.
  - vm_compute; reflexivity.
  - vm_compute. discriminate.
Qed.

(** C9, as amended: when [used], [total] and [units] pass their stages
    and [raw.usageMonths] is an empty list, the parser raises "No month
    data found" -- not the message of an absent [usageMonths] -- and
    returns no result. *)
Theorem no_month_data_message (utcoffset : Z -> Z) (usage_data : value) :
  passes_before utcoffset MonthsPresent usage_data = true ->
  usageMonths usage_data = Ok (VList []) ->
  parse_usage_data utcoffset usage_data = Raise (RuntimeError "No month data found") /\
  reported_as (parse_usage_data utcoffset usage_data) "no month data found" /\
  ~ reported_as (parse_usage_data utcoffset usage_data) "missing usageMonths field" /\
  (forall data, parse_usage_data utcoffset usage_data <> Ok data).
Proof.
  intros Hp Hm.
  assert (Hmsg : parse_usage_data utcoffset usage_data
                 = Raise (RuntimeError "No month data found")).
  { rewrite parse_usage_data_stages.
    destruct (passes_usage_fields _ _ Hp) as (u & t & un & -> & -> & ->).
    rewrite Hm. reflexivity. }
  split; [exact Hmsg|]. split; [|split].
  - exists "No month data found". split; [exact Hmsg | vm_compute; reflexivity].
  - rewrite Hmsg. intros (msg & [= <-] & Hc). vm_compute in Hc. discriminate.
  - intros data. rewrite Hmsg. discriminate.
Qed.

Lemma no_month_data_message_witness :
  let usage_data := VDict (record (VStr "50") (VStr "100") []) in
  usageMonths usage_data = Ok (VList []) /\
  parse_usage_data utc usage_data = Raise (RuntimeError "No month data found").
Proof.
  split; [vm_compute; reflexivity|].
  refine (proj1 (no_month_data_message utc
                   (VDict (record (VStr "50") (VStr "100") [])) _ _));
    vm_compute; reflexivity.
Defined.

(** C9 as stated fails: [usageMonths] is present and empty, yet [used] is
    missing and that is what the parser reports. *)
Lemma empty_months_behind_missing_used :
  let usage_data := VDict (without "used" (record (VStr "50") (VStr "100") [])) in
  usageMonths usage_data = Ok (VList []) /\
  parse_usage_data utc usage_data = Raise (RuntimeError "Missing usage field") /\
  parse_usage_data utc usage_data <> Raise (RuntimeError "No month data found").
Proof.
  cbv zeta. split; [|split].
  - vm_compute; reflexivity.
  - vm_compute; reflexivity.
  - vm_compute. discriminate.
Qed.

(** C10, as amended: when [used], [total] and [units] pass their stages,
    a record without the key [raw] is refused with the message
    [Missing "usageMonths" field], and so is every such record whose
    [raw] lacks [usageMonths]: the caller gets the same exception. *)
Theorem missing_raw_message (utcoffset : Z -> Z) (usage_data : value) :
  passes_before utcoffset MonthsPresent usage_data = true ->
  getitem usage_data "raw" = Raise KeyError ->
  parse_usage_data utcoffset usage_data = Raise (RuntimeError missing_usageMonths_msg) /\
  reported_as (parse_usage_data utcoffset usage_data) "missing usageMonths field" /\
  forall other raw,
    passes_before utcoffset MonthsPresent other = true ->
    getitem other "raw" = Ok raw ->
    getitem raw "usageMonths" = Raise KeyError ->
    parse_usage_data utcoffset other = parse_usage_data utcoffset usage_data.
Proof.
  intros Hp Hraw.
  assert (Hmsg : parse_usage_data utcoffset usage_data
                 = Raise (RuntimeError missing_usageMonths_msg)).
  { rewrite parse_usage_data_stages.
    destruct (passes_usage_fields _ _ Hp) as (u & t & un & -> & -> & ->).
    unfold usageMonths; cbn [mbind Monad_res]. rewrite Hraw. reflexivity. }
  split; [exact Hmsg|]. split.
  - exists missing_usageMonths_msg. split; [exact Hmsg | vm_compute; reflexivity].
  - intros other raw Hq Hr Hm.
    rewrite Hmsg, parse_usage_data_stages.
    destruct (passes_usage_fields _ _ Hq) as (u & t & un & -> & -> & ->).
    unfold usageMonths; cbn [mbind Monad_res]. rewrite Hr; cbn [bind]. rewrite Hm.
    reflexivity.
Qed.

Lemma missing_raw_message_witness :
  let usage_data := VDict (without "raw" (record (VStr "50") (VStr "100") january)) in
  getitem usage_data "raw" = Raise KeyError /\
  parse_usage_data utc usage_data = Raise (RuntimeError missing_usageMonths_msg).
Proof.
  split; [vm_compute; reflexivity|].
  refine (proj1 (missing_raw_message utc
                   (VDict (without "raw" (record (VStr "50") (VStr "100") january))) _ _));
    vm_compute; reflexivity.
Defined.

(** C10 as stated fails: the record has no [raw] key, yet [used] is
    missing too and that is what the parser reports. *)
Lemma missing_raw_behind_missing_used :
  let usage_data := VDict (without "used" (without "raw" (record (VStr "50") (VStr "100") january))) in
  getitem usage_data "raw" = Raise KeyError /\
  parse_usage_data utc usage_data = Raise (RuntimeError "Missing usage field") /\
  parse_usage_data utc usage_data <> Raise (RuntimeError missing_usageMonths_msg).
Proof.
  cbv zeta. split; [|split].
  - vm_compute; reflexivity.
  - vm_compute; reflexivity.
  - vm_compute. discriminate.
Qed.

(** ** The percentage calculator *)

(** The normalised difference of two datetimes keeps their exact distance. *)
Lemma sub_exact (a b : datetime) :
  (days (sub a b) * 86400 + seconds (sub a b)) * 10 ^ 6 + microseconds (sub a b)
  = microseconds_between a b.
Proof.
  unfold sub, new_timedelta, microseconds_between, abs_microseconds.
  cbn [days seconds microseconds].
  change (10 ^ 6) with 1000000.
  set (d := toordinal a - toordinal b).
  set (s := second a + minute a * 60 + hour a * 3600 - (second b + minute b * 60 + hour b * 3600)).
  set (u := microsecond a - microsecond b).
  pose proof (Z.div_mod u 1000000 ltac:(lia)).
  pose proof (Z.div_mod (s + u / 1000000) 86400 ltac:(lia)).
  lia.
Qed.

Lemma truediv_nonzero (x y : float) :
  PrimFloat.eqb y 0 = false -> truediv x y = Ok (x / y)%float.
Proof. unfold truediv. intros ->. reflexivity. Qed.

(** C3: the cycle length is the distance from [start_date] to [end_date]
    in hours plus 24, the elapsed time the distance from [start_date] to
    [cur_date] in hours, whatever its sign or size; the percentages are
    elapsed / length * 100 and used / total * 100.  For the cycle
    01/01/2024 to 01/31/2024 read on 01/15/2024 at 00:00 with 50 of 100
    used: 744 hours, 336 hours, 45.16 and 50.00 percent.  Read a day before
    the cycle the elapsed time is -24 hours, and read on 02/10/2024 it is
    960 hours, 129.03 percent. *)
Theorem percentage_calculator :
  (forall data : usage,
      month_hours data
      = (secs <- int_truediv (microseconds_between (end_date data) (start_date data)) (10 ^ 6) ;;
         ret (secs / 3600 + 24)%float) /\
      cur_hours data
      = (secs <- int_truediv (microseconds_between (cur_date data) (start_date data)) (10 ^ 6) ;;
         ret (secs / 3600)%float) /\
      percent_elapsed data
      = (length <- month_hours data ;;
         elapsed <- cur_hours data ;;
         if PrimFloat.eqb length 0 then Raise ZeroDivisionError
         else Ok (elapsed / length * 100)%float) /\
      percent_bw data
      = (if PrimFloat.eqb (total data) 0 then Raise ZeroDivisionError
         else Ok (used data / total data * 100)%float)) /\
  (month_hours (january_usage 50 100) = Ok 744%float /\
   cur_hours (january_usage 50 100) = Ok 336%float /\
   (exists pe, percent_elapsed (january_usage 50 100) = Ok pe /\ format_fixed2 pe = "45.16") /\
   percent_bw (january_usage 50 100) = Ok 50%float /\
   format_fixed2 50 = "50.00") /\
  (cur_hours (january_at (mkdatetime 2023 12 31 0 0 0 0)) = Ok (-24)%float /\
   cur_hours (january_at (mkdatetime 2024 2 10 0 0 0 0)) = Ok 960%float /\
   exists pe, percent_elapsed (january_at (mkdatetime 2024 2 10 0 0 0 0)) = Ok pe /\
              format_fixed2 pe = "129.03").
Proof.
  split; [|split].
  - intros data. split; [|split; [|split]].
    + unfold month_hours, total_seconds. rewrite sub_exact. cbn [mbind Monad_res ret].
      destruct (int_truediv _ _); cbn [bind]; [|reflexivity].
      rewrite truediv_nonzero by reflexivity. reflexivity.
    + unfold cur_hours, total_seconds. rewrite sub_exact. cbn [mbind Monad_res ret].
      destruct (int_truediv _ _); cbn [bind]; [|reflexivity].
      apply truediv_nonzero. reflexivity.
    + unfold percent_elapsed. cbn [mbind Monad_res ret].
      destruct (month_hours data) as [length|e]; cbn [bind]; [|reflexivity].
      destruct (cur_hours data) as [elapsed|e]; cbn [bind]; [|reflexivity].
      unfold truediv. destruct (PrimFloat.eqb length 0); reflexivity.
    + unfold percent_bw, truediv. cbn [mbind Monad_res ret].
      destruct (PrimFloat.eqb (total data) 0); reflexivity.
  - split; [vm_compute; reflexivity|].
    split; [vm_compute; reflexivity|].
    split; [|split; vm_compute; reflexivity].
    eexists. split; vm_compute; reflexivity.
  - split; [vm_compute; reflexivity|].
    split; [vm_compute; reflexivity|].
    eexists. split; vm_compute; reflexivity.
Qed.

(** ** Runs of [main] *)

Section Runs.

Variable utcoffset : Z -> Z.
Variable load_config : string -> res value.
Variable xfinity_usage_run : value -> value -> string -> res value.

Lemma credentials_ok (cfg username password : value) :
  credentials cfg = Ok (username, password) ->
  getitem cfg "username" = Ok username /\ getitem cfg "password" = Ok password.
Proof.
  unfold credentials; cbn [mbind Monad_res ret bind].
  destruct (getitem cfg "username") as [u|e]; cbn [bind]; [|discriminate].
  destruct (getitem cfg "password") as [p|e]; cbn [bind]; [|discriminate].
  intros [= -> ->]. auto.
Qed.

Ltac run_io :=
  cbn [mbind Monad_io Monad_res ret io_bind io_try lift print sys_exit bind app fst snd].

(** The run, once the record is fetched: what [main] does with each
    outcome of the parser and of the summary's expressions. *)
Lemma main_fetched (config_file : string) (usage_data : value) :
  fetched load_config xfinity_usage_run config_file (Ok usage_data) ->
  main utcoffset load_config xfinity_usage_run config_file =
  match parse_usage_data utcoffset usage_data with
  | Raise (RuntimeError msg) =>
      (progress_lines ++ [mkline stdout "Failed to parse usage data: {}" [AExn (RuntimeError msg)]],
       Raise UnboundLocalError)
  | Raise e => (progress_lines, Raise e)
  | Ok data =>
      match percent_elapsed data with
      | Raise e => (progress_lines, Raise e)
      | Ok pe =>
      match percent_bw data with
      | Raise e => (progress_lines, Raise e)
      | Ok pb =>
      match int_of_float (used data) with
      | Raise e => (progress_lines ++ firstn 2 (summary_lines pe pb 0 0 (units data)), Raise e)
      | Ok iu =>
      match int_of_float (total data) with
      | Raise e => (progress_lines ++ firstn 2 (summary_lines pe pb 0 0 (units data)), Raise e)
      | Ok it => (progress_lines ++ summary_lines pe pb iu it (units data), Ok tt)
      end end end end
  end.
Proof.
  intros (cfg & u & p & Hcfg & Hcred & Hrun).
  apply credentials_ok in Hcred as [Hu Hp].
  unfold main. rewrite Hcfg. run_io. rewrite Hu. run_io. rewrite Hp. run_io.
  rewrite Hrun. run_io.
  destruct (parse_usage_data utcoffset usage_data) as [data|e]; run_io.
  2: { destruct e; reflexivity. }
  destruct (percent_elapsed data) as [pe|e]; run_io; [|reflexivity].
  destruct (percent_bw data) as [pb|e]; run_io; [|reflexivity].
  destruct (int_of_float (used data)) as [iu|e]; run_io; [|reflexivity].
  destruct (int_of_float (total data)) as [it|e]; run_io; reflexivity.
Qed.

Lemma main_config_error (config_file : string) :
  config_error load_config config_file ->
  exists l, main utcoffset load_config xfinity_usage_run config_file
            = ([l], Raise (SystemExit 0)) /\ to l = stderr.
Proof.
  intros [[msg H] | (cfg & H & Hc)]; unfold main; rewrite H; run_io.
  - eexists; split; reflexivity.
  - revert Hc. unfold credentials; cbn [mbind Monad_res ret bind].
    destruct (getitem cfg "username") as [u|e]; cbn [bind]; run_io.
    + destruct (getitem cfg "password") as [p|e]; cbn [bind]; run_io; [discriminate|].
      intros [= ->]. eexists; split; reflexivity.
    + intros [= ->]. eexists; split; reflexivity.
Qed.

Lemma main_fetch_error (config_file msg : string) :
  fetched load_config xfinity_usage_run config_file (Raise (RuntimeError msg)) ->
  main utcoffset load_config xfinity_usage_run config_file
  = ([mkline stdout "Requesting usage data..." [];
      mkline stdout "Failed to fetch usage data: {}" [AExn (RuntimeError msg)]],
     Raise (SystemExit 0)).
Proof.
  intros (cfg & u & p & Hcfg & Hcred & Hrun).
  apply credentials_ok in Hcred as [Hu Hp].
  unfold main. rewrite Hcfg. run_io. rewrite Hu. run_io. rewrite Hp. run_io.
  rewrite Hrun. run_io. reflexivity.
Qed.

(** C1, on the code: when the parser raises [RuntimeError], [main] prints
    the message and goes on to read the local [data], which was never
    bound: [UnboundLocalError] leaves [main] uncaught and the interpreter
    exits with status 1. *)
Theorem parse_failure_escapes_main (config_file msg : string) :
  parse_error utcoffset load_config xfinity_usage_run config_file msg ->
  main utcoffset load_config xfinity_usage_run config_file
  = (progress_lines ++ [mkline stdout "Failed to parse usage data: {}" [AExn (RuntimeError msg)]],
     Raise UnboundLocalError) /\
  uncaught (snd (main utcoffset load_config xfinity_usage_run config_file)) = true /\
  exit_status (snd (main utcoffset load_config xfinity_usage_run config_file)) = 1.
Proof.
  intros (usage_data & Hf & Hp).
  rewrite (main_fetched _ _ Hf), Hp. repeat split.
Qed.

(** C2, as amended: the exit status is 0 when the configuration file
    cannot be read or lacks a key, when the scraper raises [RuntimeError],
    and when the record is parsed and the summary computed. *)
Theorem exit_status_zero (config_file : string) :
  config_error load_config config_file \/
  fetch_error load_config xfinity_usage_run config_file \/
  summary_computed utcoffset load_config xfinity_usage_run config_file ->
  exit_status (snd (main utcoffset load_config xfinity_usage_run config_file)) = 0.
Proof.
  intros [H | [[msg H] | (data & pe & pb & iu & it & (usage_data & Hf & Hp) & He & Hb & Hu & Ht)]].
  - destruct (main_config_error _ H) as (l & -> & _). reflexivity.
  - rewrite (main_fetch_error _ _ H). reflexivity.
  - rewrite (main_fetched _ _ Hf), Hp, He, Hb, Hu, Ht. reflexivity.
Qed.

(** C5, as amended: with [used] and [total] both zero, [used / total]
    raises [ZeroDivisionError]; nothing catches it, so the run prints its
    two progress lines and no summary, and ends in that exception. *)
Theorem zero_total_aborts (config_file : string) (data : usage) (pe : float) :
  parsed utcoffset load_config xfinity_usage_run config_file data ->
  percent_elapsed data = Ok pe ->
  used data = 0%float -> total data = 0%float ->
  percent_bw data = Raise ZeroDivisionError /\
  main utcoffset load_config xfinity_usage_run config_file
  = (progress_lines, Raise ZeroDivisionError) /\
  uncaught (snd (main utcoffset load_config xfinity_usage_run config_file)) = true.
Proof.
  intros (usage_data & Hf & Hp) He Hu Ht.
  assert (Hb : percent_bw data = Raise ZeroDivisionError).
  { unfold percent_bw, truediv. rewrite Ht. reflexivity. }
  rewrite (main_fetched _ _ Hf), Hp, He, Hb. repeat split.
Qed.

End Runs.

Lemma parse_failure_escapes_main_witness :
  parse_usage_data utc (VDict []) = Raise (RuntimeError "Missing usage field") /\
  main utc config_ok (returns (VDict [])) "config.toml"
  = (progress_lines
       ++ [mkline stdout "Failed to parse usage data: {}"
                  [AExn (RuntimeError "Missing usage field")]],
     Raise UnboundLocalError).
Proof.
  split; [vm_compute; reflexivity|].
  refine (proj1 (parse_failure_escapes_main utc config_ok (returns (VDict []))
                   "config.toml" "Missing usage field" _)).
  exists (VDict []). split; [|vm_compute; reflexivity].
  exists (VDict [("username", VStr "user"); ("password", VStr "secret")]),
         (VStr "user"), (VStr "secret").
  repeat split.
Defined.

Lemma exit_status_zero_witness :
  config_missing "config.toml" = Raise (OSError "[Errno 2] No such file or directory") /\
  exit_status (snd (main utc config_missing (returns (VDict [])) "config.toml")) = 0.
Proof.
  split; [reflexivity|].
  refine (exit_status_zero utc config_missing (returns (VDict [])) "config.toml" _).
  left. left. exists "[Errno 2] No such file or directory". reflexivity.
Defined.

(** C2 as stated fails: a record with a zero allowance is parsed, and the
    run ends in an uncaught [ZeroDivisionError], status 1. *)
Lemma zero_allowance_exit_status :
  let usage_data := VDict (record (VStr "5") (VStr "0") january) in
  (exists data, parse_usage_data utc usage_data = Ok data) /\
  main utc config_ok (returns usage_data) "config.toml"
  = (progress_lines, Raise ZeroDivisionError) /\
  exit_status (snd (main utc config_ok (returns usage_data) "config.toml")) = 1.
Proof.
  cbv zeta. split; [eexists; vm_compute; reflexivity|].
  split; vm_compute; reflexivity.
Qed.

Lemma zero_total_aborts_witness :
  let usage_data := VDict (record (VStr "0") (VStr "0") january) in
  parse_usage_data utc usage_data = Ok (january_usage 0 0) /\
  main utc config_ok (returns usage_data) "config.toml"
  = (progress_lines, Raise ZeroDivisionError).
Proof.
  cbv zeta. split; [vm_compute; reflexivity|].
  refine (proj1 (proj2 (zero_total_aborts utc config_ok
                   (returns (VDict (record (VStr "0") (VStr "0") january)))
                   "config.toml" (january_usage 0 0) _ _ _ eq_refl eq_refl))).
  - exists (VDict (record (VStr "0") (VStr "0") january)).
    split; [|vm_compute; reflexivity].
    exists (VDict [("username", VStr "user"); ("password", VStr "secret")]),
           (VStr "user"), (VStr "secret").
    repeat split.
  - vm_compute; reflexivity.
Defined.

(** C5 as stated fails: with [used] and [total] zero the run ends in an
    exception that nothing handles. *)
Lemma zero_usage_unhandled :
  let usage_data := VDict (record (VStr "0") (VStr "0") january) in
  main utc config_ok (returns usage_data) "config.toml"
  = (progress_lines, Raise ZeroDivisionError) /\
  uncaught (snd (main utc config_ok (returns usage_data) "config.toml")) = true /\
  exit_status (snd (main utc config_ok (returns usage_data) "config.toml")) = 1.
Proof.
  cbv zeta. split; [|split]; vm_compute; reflexivity.
Qed.

(** * Further properties of the script *)

(** ** The parser's other messages *)

(** X1: a record without [used], or whose [used] converts and which has
    no [total], or whose [used] and [total] convert and which has no
    [units], is refused with "Missing usage field". *)
Theorem missing_usage_field_message (utcoffset : Z -> Z) (usage_data : value) :
  getitem usage_data "used" = Raise KeyError \/
  (exists u, float_field usage_data "used" = Ok u /\
             getitem usage_data "total" = Raise KeyError) \/
  (exists u t, float_field usage_data "used" = Ok u /\
               float_field usage_data "total" = Ok t /\
               getitem usage_data "units" = Raise KeyError) ->
  parse_usage_data utcoffset usage_data = Raise (RuntimeError "Missing usage field").
Proof.
  rewrite parse_usage_data_stages.
  intros [H | [(u & Hu & H) | (u & t & Hu & Ht & H)]].
  - unfold float_field; cbn [mbind Monad_res]. rewrite H. reflexivity.
  - rewrite Hu. unfold float_field; cbn [mbind Monad_res]. rewrite H. reflexivity.
  - rewrite Hu, Ht, H. reflexivity.
Qed.

Lemma missing_usage_field_message_witness :
  let usage_data := VDict (without "units" (record (VStr "50") (VStr "100") january)) in
  getitem usage_data "units" = Raise KeyError /\
  parse_usage_data utc usage_data = Raise (RuntimeError "Missing usage field").
Proof.
  split; [vm_compute; reflexivity|].
  refine (missing_usage_field_message utc
            (VDict (without "units" (record (VStr "50") (VStr "100") january))) _).
  right. right. exists 50%float, 100%float.
  split; [|split]; vm_compute; reflexivity.
Defined.

(** X2: when the stages before the dates pass and the last month lacks
    [startDate], or has a [startDate] that parses and lacks [endDate],
    the record is refused with "Missing start and end date". *)
Theorem missing_dates_message (utcoffset : Z -> Z) (usage_data last_month : value) :
  passes_before utcoffset DateFields usage_data = true ->
  (months <- usageMonths usage_data ;; getitem_last months) = Ok last_month ->
  getitem last_month "startDate" = Raise KeyError \/
  (exists d, date_field last_month "startDate" = Ok d /\
             getitem last_month "endDate" = Raise KeyError) ->
  parse_usage_data utcoffset usage_data = Raise (RuntimeError "Missing start and end date").
Proof.
  intros Hp Hlm Hdate.
  rewrite parse_usage_data_stages.
  destruct (passes_last_month _ _ Hp) as [Hp' (months & lm & Em & El)].
  destruct (passes_usage_fields _ _ Hp') as (u & t & un & -> & -> & ->).
  cbn [mbind Monad_res] in Hlm. rewrite Em in *. cbn [bind] in Hlm.
  rewrite Hlm. unfold date_field in *; cbn [mbind Monad_res] in *.
  destruct Hdate as [-> | (d & -> & ->)]; reflexivity.
Qed.

Lemma missing_dates_message_witness :
  let last_month := VDict [("startDate", VStr "01/01/2024")] in
  let usage_data := VDict (record (VStr "50") (VStr "100") [last_month]) in
  getitem last_month "endDate" = Raise KeyError /\
  parse_usage_data utc usage_data = Raise (RuntimeError "Missing start and end date").
Proof.
  split; [vm_compute; reflexivity|].
  refine (missing_dates_message utc
            (VDict (record (VStr "50") (VStr "100") [VDict [("startDate", VStr "01/01/2024")]]))
            (VDict [("startDate", VStr "01/01/2024")]) _ _ _).
  - vm_compute; reflexivity.
  - vm_compute; reflexivity.
  - right. exists (mkdatetime 2024 1 1 0 0 0 0). split; vm_compute; reflexivity.
Defined.

(** X3: when the stages before the dates pass and [strptime] refuses the
    last month's [startDate] with [ValueError], or accepts it and refuses
    the [endDate], the record is refused with "Failed to decode date
    range"; a missing [endDate] behind an undecodable [startDate] goes
    unreported. *)
Theorem undecodable_dates_message (utcoffset : Z -> Z) (usage_data last_month : value) :
  passes_before utcoffset DateFields usage_data = true ->
  (months <- usageMonths usage_data ;; getitem_last months) = Ok last_month ->
  (exists v, getitem last_month "startDate" = Ok v /\
             strptime v DATE_FMT = Raise ValueError) \/
  (exists d v, date_field last_month "startDate" = Ok d /\
               getitem last_month "endDate" = Ok v /\
               strptime v DATE_FMT = Raise ValueError) ->
  parse_usage_data utcoffset usage_data = Raise (RuntimeError "Failed to decode date range").
Proof.
  intros Hp Hlm Hdate.
  rewrite parse_usage_data_stages.
  destruct (passes_last_month _ _ Hp) as [Hp' (months & lm & Em & El)].
  destruct (passes_usage_fields _ _ Hp') as (u & t & un & -> & -> & ->).
  cbn [mbind Monad_res] in Hlm. rewrite Em in *. cbn [bind] in Hlm.
  rewrite Hlm. unfold date_field in *; cbn [mbind Monad_res] in *.
  destruct Hdate as [(v & -> & Hv) | (d & v & -> & -> & Hv)]; cbn [bind]; rewrite Hv;
    reflexivity.
Qed.

Lemma undecodable_dates_message_witness :
  let last_month := VDict [("startDate", VStr "2024-01-01")] in
  let usage_data := VDict (record (VStr "50") (VStr "100") [last_month]) in
  strptime (VStr "2024-01-01") DATE_FMT = Raise ValueError /\
  getitem last_month "endDate" = Raise KeyError /\
  parse_usage_data utc usage_data = Raise (RuntimeError "Failed to decode date range").
Proof.
  split; [vm_compute; reflexivity|]. split; [vm_compute; reflexivity|].
  refine (undecodable_dates_message utc
            (VDict (record (VStr "50") (VStr "100") [VDict [("startDate", VStr "2024-01-01")]]))
            (VDict [("startDate", VStr "2024-01-01")]) _ _ _).
  - vm_compute; reflexivity.
  - vm_compute; reflexivity.
  - left. exists (VStr "2024-01-01"). split; vm_compute; reflexivity.
Defined.

(** X4: when every earlier stage passes and [fromtimestamp] refuses the
    [data_timestamp] with [ValueError] (a NaN, or an instant outside the
    years 1 to 9999), the record is refused with "Failed to decode current
    date". *)
Theorem undecodable_timestamp_message (utcoffset : Z -> Z) (usage_data ts : value) :
  passes_before utcoffset Timestamp usage_data = true ->
  getitem usage_data "data_timestamp" = Ok ts ->
  fromtimestamp utcoffset ts = Raise ValueError ->
  parse_usage_data utcoffset usage_data = Raise (RuntimeError "Failed to decode current date").
Proof.
  intros Hp Hts Hv.
  rewrite parse_usage_data_stages.
  destruct (passes_dates _ _ Hp) as [Hp' (months & lm & sd & ed & -> & -> & -> & ->)].
  destruct (passes_last_month _ _ Hp') as [Hp'' _].
  destruct (passes_usage_fields _ _ Hp'') as (u & t & un & -> & -> & ->).
  cbn [mbind Monad_res bind]. rewrite Hts; cbn [bind]. rewrite Hv. reflexivity.
Qed.

Lemma undecodable_timestamp_message_witness :
  let usage_data :=
    VDict (("data_timestamp", VInt (10 ^ 12)) :: record (VStr "50") (VStr "100") january) in
  fromtimestamp utc (VInt (10 ^ 12)) = Raise ValueError /\
  parse_usage_data utc usage_data = Raise (RuntimeError "Failed to decode current date").
Proof.
  split; [vm_compute; reflexivity|].
  refine (undecodable_timestamp_message utc
            (VDict (("data_timestamp", VInt (10 ^ 12))
                      :: record (VStr "50") (VStr "100") january))
            (VInt (10 ^ 12)) _ _ _); vm_compute; reflexivity.
Defined.

(** ** What the parser lets through *)

Ltac break_match :=
  match goal with
  | |- context [match ?x with _ => _ end] => destruct x eqn:?
  | |- context [if ?x then _ else _] => destruct x eqn:?
  end.

Lemma getitem_raises (obj : value) (key : string) (e : exn) :
  getitem obj key = Raise e -> e = KeyError \/ e = TypeError.
Proof.
  destruct obj; cbn; try (intros [= <-]; auto).
  destruct (lookup key d); [discriminate | intros [= <-]; auto].
Qed.

Lemma getitem_last_raises (obj : value) (e : exn) :
  getitem_last obj = Raise e -> e = IndexError \/ e = KeyError \/ e = TypeError.
Proof.
  destruct obj; cbn; try (intros [= <-]; auto).
  - destruct (last_char s); [discriminate | intros [= <-]; auto].
  - destruct (rev l); [intros [= <-]; auto | discriminate].
Qed.

Lemma to_float_raises (x : value) (e : exn) :
  to_float x = Raise e -> e = ValueError \/ e = TypeError \/ e = OverflowError.
Proof.
  destruct x; cbn [to_float]; try (intros [= <-]; auto); try discriminate.
  - unfold float_of_int. destruct (round_quotient z 1); try discriminate.
    intros [= <-]; auto.
  - unfold float_of_string.
    repeat break_match; try discriminate; intros [= <-]; auto.
Qed.

Lemma strptime_raises (data : value) (fmt : string) (e : exn) :
  strptime data fmt = Raise e -> e = ValueError \/ e = TypeError.
Proof.
  unfold strptime.
  repeat break_match; try discriminate; intros [= <-]; auto.
Qed.

Lemma int_of_float_raises (x : float) (e : exn) :
  int_of_float x = Raise e -> e = ValueError \/ e = OverflowError.
Proof.
  unfold int_of_float. destruct (Prim2SF x); try discriminate; intros [= <-]; auto.
Qed.

Lemma to_timeval_raises (ts : value) (e : exn) :
  to_timeval ts = Raise e -> e = ValueError \/ e = TypeError \/ e = OverflowError.
Proof.
  unfold to_timeval.
  destruct ts; try (intros [= <-]; auto); try discriminate.
  - destruct (_ && _); [discriminate | intros [= <-]; auto].
  - destruct (Prim2SF f) eqn:Ef; try (intros [= <-]; auto);
      (destruct (int_of_float f) as [ip|e'] eqn:Ei;
       [ repeat break_match; try discriminate; intros [= <-]; auto
       | intros [= <-]; destruct (int_of_float_raises _ _ Ei) as [-> | ->]; auto ]).
Qed.

Lemma fromtimestamp_raises (utcoffset : Z -> Z) (ts : value) (e : exn) :
  fromtimestamp utcoffset ts = Raise e ->
  e = ValueError \/ e = TypeError \/ e = OverflowError \/ exists msg, e = OSError msg.
Proof.
  unfold fromtimestamp.
  destruct (to_timeval ts) as [[sec us]|e'] eqn:Et; cbn [bind].
  - repeat break_match; try discriminate; intros [= <-]; eauto.
  - intros [= <-]. destruct (to_timeval_raises _ _ Et) as [-> | [-> | ->]]; auto.
Qed.

(** The exceptions each [try] block of the parser can end in. *)
Lemma parse_usage_data_raises (utcoffset : Z -> Z) (usage_data : value) (e : exn) :
  parse_usage_data utcoffset usage_data = Raise e ->
  (exists msg, e = RuntimeError msg /\ In msg parser_messages) \/
  e = TypeError \/ e = OverflowError \/ exists msg, e = OSError msg.
Proof.
  rewrite parse_usage_data_stages.
  unfold float_field, usageMonths, date_field, parser_messages; cbn [mbind Monad_res].
  destruct (getitem usage_data "used") as [vu|e1] eqn:E1; cbn [bind].
  2: { intros [= <-]. destruct (getitem_raises _ _ _ E1) as [-> | ->]; cbn; eauto 10. }
  destruct (to_float vu) as [u|e2] eqn:E2.
  2: { intros [= <-]. destruct (to_float_raises _ _ E2) as [-> | [-> | ->]]; cbn; eauto 10. }
  destruct (getitem usage_data "total") as [vt|e3] eqn:E3; cbn [bind].
  2: { intros [= <-]. destruct (getitem_raises _ _ _ E3) as [-> | ->]; cbn; eauto 10. }
  destruct (to_float vt) as [t|e4] eqn:E4.
  2: { intros [= <-]. destruct (to_float_raises _ _ E4) as [-> | [-> | ->]]; cbn; eauto 10. }
  destruct (getitem usage_data "units") as [un|e5] eqn:E5.
  2: { intros [= <-]. destruct (getitem_raises _ _ _ E5) as [-> | ->]; cbn; eauto 10. }
  destruct (getitem usage_data "raw") as [raw|e6] eqn:E6; cbn [bind].
  2: { intros [= <-]. destruct (getitem_raises _ _ _ E6) as [-> | ->]; cbn; eauto 10. }
  destruct (getitem raw "usageMonths") as [months|e7] eqn:E7.
  2: { intros [= <-]. destruct (getitem_raises _ _ _ E7) as [-> | ->]; cbn; eauto 10. }
  destruct (getitem_last months) as [lm|e8] eqn:E8.
  2: { intros [= <-]. destruct (getitem_last_raises _ _ E8) as [-> | [-> | ->]]; cbn; eauto 10. }
  destruct (getitem lm "startDate") as [sd|e9] eqn:E9; cbn [bind].
  2: { intros [= <-]. destruct (getitem_raises _ _ _ E9) as [-> | ->]; cbn; eauto 12. }
  destruct (strptime sd DATE_FMT) as [d1|e10] eqn:E10.
  2: { intros [= <-]. destruct (strptime_raises _ _ _ E10) as [-> | ->]; cbn; eauto 12. }
  destruct (getitem lm "endDate") as [ed|e11] eqn:E11; cbn [bind].
  2: { intros [= <-]. destruct (getitem_raises _ _ _ E11) as [-> | ->]; cbn; eauto 12. }
  destruct (strptime ed DATE_FMT) as [d2|e12] eqn:E12.
  2: { intros [= <-]. destruct (strptime_raises _ _ _ E12) as [-> | ->]; cbn; eauto 12. }
  destruct (getitem usage_data "data_timestamp") as [ts|e13] eqn:E13; cbn [bind].
  2: { intros [= <-]. destruct (getitem_raises _ _ _ E13) as [-> | ->]; cbn; eauto 12. }
  destruct (fromtimestamp utcoffset ts) as [cd|e14] eqn:E14; [discriminate|].
  intros [= <-].
  destruct (fromtimestamp_raises _ _ _ E14) as [-> | [-> | [-> | [msg ->]]]]; cbn; eauto 14.
Qed.

(** X5: the parser turns every [KeyError], [IndexError] and [ValueError]
    into a [RuntimeError] with one of its seven texts; the only other
    exceptions it lets through are [TypeError] (a field of the wrong
    type), [OverflowError] (an integer or timestamp out of range) and the
    [OSError] of [fromtimestamp]. *)
Theorem parser_exceptions (utcoffset : Z -> Z) (usage_data : value) (e : exn) :
  parse_usage_data utcoffset usage_data = Raise e ->
  (exists msg, e = RuntimeError msg /\ In msg parser_messages) \/
  e = TypeError \/ e = OverflowError \/ exists msg, e = OSError msg.
Proof. exact (parse_usage_data_raises utcoffset usage_data e). Qed.

Lemma parser_exceptions_witness :
  parse_usage_data utc (VDict (record (VInt (10 ^ 400)) (VStr "100") january))
    = Raise OverflowError /\
  ((exists msg, OverflowError = RuntimeError msg /\ In msg parser_messages) \/
   OverflowError = TypeError \/ OverflowError = OverflowError \/
   exists msg, OverflowError = OSError msg).
Proof.
  split; [vm_compute; reflexivity|].
  refine (parser_exceptions utc (VDict (record (VInt (10 ^ 400)) (VStr "100") january))
            OverflowError _).
  vm_compute; reflexivity.
Defined.

(** X6: a record that is not a dictionary -- [None], a list, a string, a
    number -- makes the parser raise [TypeError], which is none of its
    own messages. *)
Theorem non_dict_record_type_error (utcoffset : Z -> Z) (usage_data : value) :
  (forall d, usage_data <> VDict d) ->
  parse_usage_data utcoffset usage_data = Raise TypeError.
Proof.
  intros H. rewrite parse_usage_data_stages.
  unfold float_field; cbn [mbind Monad_res].
  destruct usage_data; try reflexivity.
  exfalso. exact (H d eq_refl).
Qed.

Lemma non_dict_record_type_error_witness :
  parse_usage_data utc VNone = Raise TypeError.
Proof.
  refine (non_dict_record_type_error utc VNone _).
  intros d. discriminate.
Defined.

(** ** What the parser reads *)

(** X7: of [usageMonths] only the last element is read: two records that
    agree on every other key and whose month lists end in the same
    element are parsed alike, whatever the earlier months hold. *)
Theorem only_last_month_read (utcoffset : Z -> Z) (a b : value)
        (front_a front_b : list value) (last_month : value) :
  (forall key, key <> "raw" -> getitem a key = getitem b key) ->
  usageMonths a = Ok (VList (front_a ++ [last_month])) ->
  usageMonths b = Ok (VList (front_b ++ [last_month])) ->
  parse_usage_data utcoffset a = parse_usage_data utcoffset b.
Proof.
  intros Hk Ha Hb.
  rewrite !parse_usage_data_stages.
  unfold float_field; cbn [mbind Monad_res].
  rewrite (Hk "used"), (Hk "total"), (Hk "units"), (Hk "data_timestamp") by discriminate.
  rewrite Ha, Hb. cbn [getitem_last]. rewrite !rev_app_distr. reflexivity.
Qed.

Lemma only_last_month_read_witness :
  parse_usage_data utc (VDict (record (VStr "50") (VStr "100") january))
  = parse_usage_data utc
      (VDict (record (VStr "50") (VStr "100") [VNone; month "01/01/2024" "01/31/2024"])).
Proof.
  refine (only_last_month_read utc
            (VDict (record (VStr "50") (VStr "100") january))
            (VDict (record (VStr "50") (VStr "100") [VNone; month "01/01/2024" "01/31/2024"]))
            [month "12/01/2023" "12/31/2023"] [VNone] (month "01/01/2024" "01/31/2024")
            _ _ _).
  - intros key Hkey. unfold record; cbn [getitem lookup].
    destruct (String.eqb key "used"); [reflexivity|].
    destruct (String.eqb key "total"); [reflexivity|].
    destruct (String.eqb key "units"); [reflexivity|].
    destruct (String.eqb_spec key "raw") as [->|_]; [contradiction|].
    reflexivity.
  - reflexivity.
  - reflexivity.
Defined.

(** X8: the parser returns [data] exactly when each field is what the
    conversions give: [used] and [total] by [float], [units] as it is, the
    dates by [strptime] from the last month, [cur_date] by
    [fromtimestamp]. *)
Theorem parse_succeeds_iff (utcoffset : Z -> Z) (usage_data : value) (data : usage) :
  parse_usage_data utcoffset usage_data = Ok data <->
  float_field usage_data "used" = Ok (used data) /\
  float_field usage_data "total" = Ok (total data) /\
  getitem usage_data "units" = Ok (units data) /\
  (exists months last_month,
      usageMonths usage_data = Ok months /\
      getitem_last months = Ok last_month /\
      date_field last_month "startDate" = Ok (start_date data) /\
      date_field last_month "endDate" = Ok (end_date data)) /\
  (v <- getitem usage_data "data_timestamp" ;; fromtimestamp utcoffset v) = Ok (cur_date data).
Proof.
  rewrite parse_usage_data_stages. split.
  - destruct (float_field usage_data "used") as [u|e]; [|discriminate].
    destruct (float_field usage_data "total") as [t|e]; [|discriminate].
    destruct (getitem usage_data "units") as [un|e]; [|discriminate].
    destruct (usageMonths usage_data) as [months|e]; [|discriminate].
    destruct (getitem_last months) as [lm|e] eqn:El; [|discriminate].
    destruct (date_field lm "startDate") as [d1|e] eqn:E1; [|discriminate].
    destruct (date_field lm "endDate") as [d2|e] eqn:E2; [|discriminate].
    destruct (mbind _ _) as [cd|e]; [|discriminate].
    intros [= <-]; cbn [used total units start_date end_date cur_date].
    repeat (split; [reflexivity|]).
    split; [|reflexivity]. exists months, lm. auto.
  - intros (-> & -> & -> & (months & lm & -> & -> & -> & ->) & ->).
    destruct data; reflexivity.
Qed.

(** ** Runs of [main]: the configuration and the scraper *)

Section Collaborators.

Variable utcoffset : Z -> Z.
Variable load_config : string -> res value.
Variable xfinity_usage_run : value -> value -> string -> res value.

Ltac step_io :=
  cbn [mbind Monad_io Monad_res ret io_bind io_try lift print sys_exit bind app fst snd].

(** The first [try] block: what [main] makes of an exception raised while
    the credentials are read. *)
Lemma main_config_raise (config_file : string) (e : exn) :
  (cfg <- load_config config_file ;; credentials cfg) = Raise e ->
  main utcoffset load_config xfinity_usage_run config_file =
  match e with
  | OSError _ =>
      ([mkline stderr "Failed to read config file: {}" [AExn e]], Raise (SystemExit 0))
  | KeyError =>
      ([mkline stderr "Missing username or password in config file" []], Raise (SystemExit 0))
  | _ => ([], Raise e)
  end.
Proof.
  unfold main, credentials; cbn [mbind Monad_res ret].
  destruct (load_config config_file) as [cfg|e0]; cbn [bind]; step_io.
  - destruct (getitem cfg "username") as [u|e1]; cbn [bind]; step_io.
    + destruct (getitem cfg "password") as [p|e2]; cbn [bind]; step_io; [discriminate|].
      intros [= ->]. destruct e; reflexivity.
    + intros [= ->]. destruct e; reflexivity.
  - intros [= ->]. destruct e; reflexivity.
Qed.

(** The second [try] block: what [main] makes of an exception of the
    scraper. *)
Lemma main_fetch_raise (config_file : string) (e : exn) :
  fetched load_config xfinity_usage_run config_file (Raise e) ->
  main utcoffset load_config xfinity_usage_run config_file =
  match e with
  | RuntimeError _ =>
      ([mkline stdout "Requesting usage data..." [];
        mkline stdout "Failed to fetch usage data: {}" [AExn e]],
       Raise (SystemExit 0))
  | _ => ([mkline stdout "Requesting usage data..." []], Raise e)
  end.
Proof.
  intros (cfg & u & p & Hcfg & Hcred & Hrun).
  apply credentials_ok in Hcred as [Hu Hp].
  unfold main. rewrite Hcfg. step_io. rewrite Hu. step_io. rewrite Hp. step_io.
  rewrite Hrun. step_io. destruct e; reflexivity.
Qed.

Lemma credentials_read (config_file : string) (username password : value) :
  (cfg <- load_config config_file ;; credentials cfg) = Ok (username, password) ->
  forall r, get_usage_data xfinity_usage_run username password = r ->
            fetched load_config xfinity_usage_run config_file r.
Proof.
  cbn [mbind Monad_res].
  destruct (load_config config_file) as [cfg|e] eqn:Hcfg; cbn [bind]; [|discriminate].
  intros Hc r Hr. exists cfg, username, password. auto.
Qed.

End Collaborators.

(** X9: when the configuration file cannot be read or lacks a key, the
    run is one line on standard error and [sys.exit(0)], the same
    whatever the scraper and the time zone are: the scraper is not
    consulted. *)
Theorem config_error_stops_run (load_config : string -> res value) (config_file : string) :
  config_error load_config config_file ->
  exists l,
    to l = stderr /\
    forall utcoffset xfinity_usage_run,
      main utcoffset load_config xfinity_usage_run config_file = ([l], Raise (SystemExit 0)).
Proof.
  intros [[msg H] | (cfg & H & Hc)].
  - eexists. split; [|intros tz run; rewrite (main_config_raise tz load_config run _ (OSError msg))];
      [| reflexivity | cbn [mbind Monad_res]; rewrite H; reflexivity].
    reflexivity.
  - eexists. split; [|intros tz run; rewrite (main_config_raise tz load_config run _ KeyError)];
      [| reflexivity | cbn [mbind Monad_res]; rewrite H; exact Hc].
    reflexivity.
Qed.

Lemma config_error_stops_run_witness :
  exists l,
    to l = stderr /\
    forall utcoffset xfinity_usage_run,
      main utcoffset (fun _ => Ok (VDict [("username", VStr "user")])) xfinity_usage_run
           "config.toml"
      = ([l], Raise (SystemExit 0)).
Proof.
  refine (config_error_stops_run (fun _ => Ok (VDict [("username", VStr "user")]))
            "config.toml" _).
  right. exists (VDict [("username", VStr "user")]). split; reflexivity.
Defined.

(** X10: an exception raised while the configuration is read that is
    neither [OSError] nor [KeyError] -- a syntax error in the file, for
    one -- is not handled: nothing is printed and it leaves [main]. *)
Theorem config_exception_escapes (utcoffset : Z -> Z) (load_config : string -> res value)
        (xfinity_usage_run : value -> value -> string -> res value)
        (config_file : string) (e : exn) :
  (cfg <- load_config config_file ;; credentials cfg) = Raise e ->
  e <> KeyError -> (forall msg, e <> OSError msg) ->
  main utcoffset load_config xfinity_usage_run config_file = ([], Raise e).
Proof.
  intros H Hk Ho. rewrite (main_config_raise _ _ _ _ _ H).
  destruct e; try reflexivity.
  - contradiction.
  - exfalso. exact (Ho msg eq_refl).
Qed.

Lemma config_exception_escapes_witness :
  main utc (config_raising ValueError) (returns (VDict [])) "config.toml"
  = ([], Raise ValueError) /\
  exit_status (snd (main utc (config_raising ValueError) (returns (VDict [])) "config.toml")) = 1.
Proof.
  rewrite (config_exception_escapes utc (config_raising ValueError) (returns (VDict []))
             "config.toml" ValueError eq_refl ltac:(discriminate) ltac:(discriminate)).
  split; reflexivity.
Defined.

(** X11: an exception of the scraper other than [RuntimeError] is not
    handled: after "Requesting usage data..." it leaves [main]. *)
Theorem fetch_exception_escapes (utcoffset : Z -> Z) (load_config : string -> res value)
        (xfinity_usage_run : value -> value -> string -> res value)
        (config_file : string) (e : exn) :
  fetched load_config xfinity_usage_run config_file (Raise e) ->
  (forall msg, e <> RuntimeError msg) ->
  main utcoffset load_config xfinity_usage_run config_file
  = ([mkline stdout "Requesting usage data..." []], Raise e).
Proof.
  intros H Hr. rewrite (main_fetch_raise _ _ _ _ _ H).
  destruct e; try reflexivity.
  exfalso. exact (Hr msg eq_refl).
Qed.

Lemma fetch_exception_escapes_witness :
  main utc config_ok (raising (OtherException "WebDriverException")) "config.toml"
  = ([mkline stdout "Requesting usage data..." []],
     Raise (OtherException "WebDriverException")).
Proof.
  refine (fetch_exception_escapes utc config_ok (raising (OtherException "WebDriverException"))
            "config.toml" (OtherException "WebDriverException") _ _).
  - exists (VDict [("username", VStr "user"); ("password", VStr "secret")]),
           (VStr "user"), (VStr "secret").
    repeat split.
  - discriminate.
Defined.

(** X12: the scraper is asked once, with the [username] and [password] of
    the configuration file and the browser "firefox-headless": two
    scrapers that answer that request alike give the same run. *)
Theorem scraper_request (utcoffset : Z -> Z) (load_config : string -> res value)
        (run_a run_b : value -> value -> string -> res value) (config_file : string) :
  (forall username password,
      (cfg <- load_config config_file ;; credentials cfg) = Ok (username, password) ->
      run_a username password "firefox-headless" = run_b username password "firefox-headless") ->
  main utcoffset load_config run_a config_file = main utcoffset load_config run_b config_file.
Proof.
  intros H.
  destruct (cfg <- load_config config_file ;; credentials cfg) as [[u p]|e] eqn:Hc.
  - specialize (H u p eq_refl).
    pose proof (credentials_read load_config run_a _ _ _ Hc _ eq_refl) as Fa.
    pose proof (credentials_read load_config run_b _ _ _ Hc _ eq_refl) as Fb.
    unfold get_usage_data in Fa, Fb. rewrite <- H in Fb.
    destruct (run_a u p "firefox-headless") as [usage_data|e].
    + rewrite (main_fetched _ _ _ _ _ Fa), (main_fetched _ _ _ _ _ Fb). reflexivity.
    + rewrite (main_fetch_raise _ _ _ _ _ Fa), (main_fetch_raise _ _ _ _ _ Fb). reflexivity.
  - rewrite !(main_config_raise _ _ _ _ _ Hc). reflexivity.
Qed.

Lemma scraper_request_witness :
  main utc config_ok (returns (VDict (record (VStr "50") (VStr "100") january))) "config.toml"
  = main utc config_ok
         (returns_for "firefox-headless" (VDict (record (VStr "50") (VStr "100") january)))
         "config.toml".
Proof.
  refine (scraper_request utc config_ok
            (returns (VDict (record (VStr "50") (VStr "100") january)))
            (returns_for "firefox-headless" (VDict (record (VStr "50") (VStr "100") january)))
            "config.toml" _).
  intros username password _. reflexivity.
Defined.

(** ** Runs of [main]: the parser's outcome and the summary *)

(** X13: an exception of the parser other than [RuntimeError] is not
    handled: after the two progress lines it leaves [main], and no
    "Failed to parse" line is printed. *)
Theorem parser_exception_escapes (utcoffset : Z -> Z) (load_config : string -> res value)
        (xfinity_usage_run : value -> value -> string -> res value)
        (config_file : string) (usage_data : value) (e : exn) :
  fetched load_config xfinity_usage_run config_file (Ok usage_data) ->
  parse_usage_data utcoffset usage_data = Raise e ->
  (forall msg, e <> RuntimeError msg) ->
  main utcoffset load_config xfinity_usage_run config_file = (progress_lines, Raise e).
Proof.
  intros Hf Hp Hr. rewrite (main_fetched _ _ _ _ _ Hf), Hp.
  destruct e; try reflexivity.
  exfalso. exact (Hr msg eq_refl).
Qed.

Lemma parser_exception_escapes_witness :
  parse_usage_data utc VNone = Raise TypeError /\
  main utc config_ok (returns VNone) "config.toml" = (progress_lines, Raise TypeError).
Proof.
  split; [vm_compute; reflexivity|].
  refine (parser_exception_escapes utc config_ok (returns VNone) "config.toml" VNone TypeError
            _ _ _).
  - exists (VDict [("username", VStr "user"); ("password", VStr "secret")]),
           (VStr "user"), (VStr "secret").
    repeat split.
  - vm_compute; reflexivity.
  - discriminate.
Defined.

(** X14: when the record is parsed and the summary's expressions
    evaluate, the run prints the two progress lines and the three lines of
    the summary -- the two percentages, [used] and [total] truncated to
    integers, and [units] as the record has it -- and returns. *)
Theorem summary_printed (utcoffset : Z -> Z) (load_config : string -> res value)
        (xfinity_usage_run : value -> value -> string -> res value)
        (config_file : string) (data : usage) (pe pb : float) (iu it : Z) :
  parsed utcoffset load_config xfinity_usage_run config_file data ->
  percent_elapsed data = Ok pe ->
  percent_bw data = Ok pb ->
  int_of_float (used data) = Ok iu ->
  int_of_float (total data) = Ok it ->
  main utcoffset load_config xfinity_usage_run config_file
  = (progress_lines ++ summary_lines pe pb iu it (units data), Ok tt).
Proof.
  intros (usage_data & Hf & Hp) He Hb Hu Ht.
  rewrite (main_fetched _ _ _ _ _ Hf), Hp, He, Hb, Hu, Ht. reflexivity.
Qed.

Lemma summary_printed_witness :
  main utc config_ok (returns (VDict (record (VStr "50.9") (VStr "100") january))) "config.toml"
  = (progress_lines
       ++ summary_lines (336 / 744 * 100)%float (50.9 / 100 * 100)%float 50 100 (VStr "GB"),
     Ok tt).
Proof.
  refine (summary_printed utc config_ok
            (returns (VDict (record (VStr "50.9") (VStr "100") january))) "config.toml"
            (january_usage 50.9 100) (336 / 744 * 100)%float (50.9 / 100 * 100)%float 50 100
            _ _ _ _ _).
  - exists (VDict (record (VStr "50.9") (VStr "100") january)).
    split; [|vm_compute; reflexivity].
    exists (VDict [("username", VStr "user"); ("password", VStr "secret")]),
           (VStr "user"), (VStr "secret").
    repeat split.
  - vm_compute; reflexivity.
  - vm_compute; reflexivity.
  - vm_compute; reflexivity.
  - vm_compute; reflexivity.
Defined.



(** X16: for a parsed record whose two durations compute, the run ends in
    [ZeroDivisionError] exactly when the cycle length in hours or the
    total allowance is zero. *)
Theorem zero_division_iff (utcoffset : Z -> Z) (load_config : string -> res value)
        (xfinity_usage_run : value -> value -> string -> res value)
        (config_file : string) (data : usage) (length elapsed : float) :
  parsed utcoffset load_config xfinity_usage_run config_file data ->
  month_hours data = Ok length ->
  cur_hours data = Ok elapsed ->
  snd (main utcoffset load_config xfinity_usage_run config_file) = Raise ZeroDivisionError <->
  PrimFloat.eqb length 0 = true \/ PrimFloat.eqb (total data) 0 = true.
Proof.
  intros (usage_data & Hf & Hp) Hm Hc.
  rewrite (main_fetched _ _ _ _ _ Hf), Hp.
  unfold percent_elapsed, percent_bw; cbn [mbind Monad_res ret].
  rewrite Hm, Hc; cbn [bind]. unfold truediv.
  destruct (PrimFloat.eqb length 0); cbn [bind snd].
  { split; auto. }
  destruct (PrimFloat.eqb (total data) 0); cbn [bind snd].
  { split; auto. }
  split; [|intros [H | H]; discriminate].
  destruct (int_of_float (used data)) as [iu|e] eqn:Eu; cbn [snd].
  - destruct (int_of_float (total data)) as [it|e] eqn:Et; cbn [snd]; [discriminate|].
    intros [= ->]. destruct (int_of_float_raises _ _ Et); discriminate.
  - intros [= ->]. destruct (int_of_float_raises _ _ Eu); discriminate.
Qed.

Lemma zero_division_iff_witness :
  let usage_data := VDict (record (VStr "50") (VStr "100") [month "01/02/2024" "01/01/2024"]) in
  (exists data, parse_usage_data utc usage_data = Ok data /\ month_hours data = Ok 0%float) /\
  snd (main utc config_ok (returns usage_data) "config.toml") = Raise ZeroDivisionError.
Proof.
  cbv zeta. split.
  { exists (mkusage 50 100 (VStr "GB") (mkdatetime 2024 1 2 0 0 0 0)
                    (mkdatetime 2024 1 1 0 0 0 0) (mkdatetime 2024 1 15 0 0 0 0)).
    split; vm_compute; reflexivity. }
  refine (proj2 (zero_division_iff utc config_ok
                   (returns (VDict (record (VStr "50") (VStr "100")
                                           [month "01/02/2024" "01/01/2024"])))
                   "config.toml"
                   (mkusage 50 100 (VStr "GB") (mkdatetime 2024 1 2 0 0 0 0)
                            (mkdatetime 2024 1 1 0 0 0 0) (mkdatetime 2024 1 15 0 0 0 0))
                   0%float 312%float _ _ _) _).
  - exists (VDict (record (VStr "50") (VStr "100") [month "01/02/2024" "01/01/2024"])).
    split; [|vm_compute; reflexivity].
    exists (VDict [("username", VStr "user"); ("password", VStr "secret")]),
           (VStr "user"), (VStr "secret").
    repeat split.
  - vm_compute; reflexivity.
  - vm_compute; reflexivity.
  - left. reflexivity.
Defined.

(** ** Every run of [main] *)

Lemma credentials_raises (cfg : value) (e : exn) :
  credentials cfg = Raise e -> e = KeyError \/ e = TypeError.
Proof.
  unfold credentials; cbn [mbind Monad_res ret].
  destruct (getitem cfg "username") as [u|e1] eqn:E1; cbn [bind].
  - destruct (getitem cfg "password") as [p|e2] eqn:E2; cbn [bind]; [discriminate|].
    intros [= <-]. exact (getitem_raises _ _ _ E2).
  - intros [= <-]. exact (getitem_raises _ _ _ E1).
Qed.

Lemma int_truediv_raises (a b : Z) (e : exn) :
  int_truediv a b = Raise e -> e = ZeroDivisionError \/ e = OverflowError.
Proof.
  unfold int_truediv.
  destruct (b =? 0); [intros [= <-]; auto|].
  destruct (if b <? 0 then _ else _); try discriminate. intros [= <-]; auto.
Qed.

Lemma truediv_raises (x y : float) (e : exn) :
  truediv x y = Raise e -> e = ZeroDivisionError.
Proof. unfold truediv. destruct (PrimFloat.eqb y 0); [intros [= <-]; auto | discriminate]. Qed.

Lemma month_hours_raises (data : usage) (e : exn) :
  month_hours data = Raise e -> e = ZeroDivisionError \/ e = OverflowError.
Proof.
  unfold month_hours, total_seconds; cbn [mbind Monad_res ret].
  destruct (int_truediv _ _) as [secs|e1] eqn:E1; cbn [bind].
  - destruct (truediv secs 3600) as [h|e2] eqn:E2; cbn [bind]; [discriminate|].
    intros [= <-]. left. exact (truediv_raises _ _ _ E2).
  - intros [= <-]. exact (int_truediv_raises _ _ _ E1).
Qed.

Lemma cur_hours_raises (data : usage) (e : exn) :
  cur_hours data = Raise e -> e = ZeroDivisionError \/ e = OverflowError.
Proof.
  unfold cur_hours, total_seconds; cbn [mbind Monad_res ret].
  destruct (int_truediv _ _) as [secs|e1] eqn:E1; cbn [bind].
  - intros H. left. exact (truediv_raises _ _ _ H).
  - intros [= <-]. exact (int_truediv_raises _ _ _ E1).
Qed.

Lemma percent_elapsed_raises (data : usage) (e : exn) :
  percent_elapsed data = Raise e -> e = ZeroDivisionError \/ e = OverflowError.
Proof.
  unfold percent_elapsed; cbn [mbind Monad_res ret].
  destruct (month_hours data) as [mh|e1] eqn:E1; cbn [bind].
  - destruct (cur_hours data) as [ch|e2] eqn:E2; cbn [bind].
    + destruct (truediv ch mh) as [r|e3] eqn:E3; cbn [bind]; [discriminate|].
      intros [= <-]. left. exact (truediv_raises _ _ _ E3).
    + intros [= <-]. exact (cur_hours_raises _ _ E2).
  - intros [= <-]. exact (month_hours_raises _ _ E1).
Qed.

Lemma percent_bw_raises (data : usage) (e : exn) :
  percent_bw data = Raise e -> e = ZeroDivisionError.
Proof.
  unfold percent_bw; cbn [mbind Monad_res ret].
  destruct (truediv _ _) as [r|e1] eqn:E1; cbn [bind]; [discriminate|].
  intros [= <-]. exact (truediv_raises _ _ _ E1).
Qed.

(** X17: every line of a run goes to standard output, except the single
    line of a run stopped by the configuration, which goes to standard
    error and is followed by [sys.exit(0)]. *)
Theorem output_streams (utcoffset : Z -> Z) (load_config : string -> res value)
        (xfinity_usage_run : value -> value -> string -> res value) (config_file : string) :
  Forall (fun l => to l = stdout)
         (fst (main utcoffset load_config xfinity_usage_run config_file)) \/
  exists l,
    main utcoffset load_config xfinity_usage_run config_file = ([l], Raise (SystemExit 0)) /\
    to l = stderr.
Proof.
  destruct (cfg <- load_config config_file ;; credentials cfg) as [[u p]|e] eqn:Hc.
  - left.
    pose proof (credentials_read load_config xfinity_usage_run _ _ _ Hc _ eq_refl) as Hf.
    destruct (get_usage_data xfinity_usage_run u p) as [usage_data|e].
    + rewrite (main_fetched _ _ _ _ _ Hf).
      destruct (parse_usage_data utcoffset usage_data) as [data|e].
      * destruct (percent_elapsed data); [|cbn; repeat constructor].
        destruct (percent_bw data); [|cbn; repeat constructor].
        destruct (int_of_float (used data)); [|cbn; repeat constructor].
        destruct (int_of_float (total data)); cbn; repeat constructor.
      * destruct e; cbn; repeat constructor.
    + rewrite (main_fetch_raise _ _ _ _ _ Hf). destruct e; cbn; repeat constructor.
  - rewrite (main_config_raise _ _ _ _ _ Hc).
    destruct e; try solve [left; cbn; constructor]; right; eexists; split; reflexivity.
Qed.

(** The exit status of a run whose collaborators do not call
    [sys.exit], and what a status of 0 means. *)
Lemma exit_status_cases (utcoffset : Z -> Z) (load_config : string -> res value)
      (xfinity_usage_run : value -> value -> string -> res value) (config_file : string) :
  (forall e, load_config config_file = Raise e ->
             e <> KeyError /\ forall n, e <> SystemExit n) ->
  (forall username password e,
      xfinity_usage_run username password "firefox-headless" = Raise e ->
      forall n, e <> SystemExit n) ->
  exit_status (snd (main utcoffset load_config xfinity_usage_run config_file)) = 0 /\
  (config_error load_config config_file \/
   fetch_error load_config xfinity_usage_run config_file \/
   summary_computed utcoffset load_config xfinity_usage_run config_file) \/
  exit_status (snd (main utcoffset load_config xfinity_usage_run config_file)) = 1.
Proof.
  intros Hl Hr.
  destruct (cfg <- load_config config_file ;; credentials cfg) as [[u p]|e] eqn:Hc.
  - pose proof (credentials_read load_config xfinity_usage_run _ _ _ Hc) as Hf.
    destruct (get_usage_data xfinity_usage_run u p) as [usage_data|e] eqn:Hg.
    + specialize (Hf _ eq_refl). rewrite (main_fetched _ _ _ _ _ Hf).
      destruct (parse_usage_data utcoffset usage_data) as [data|e] eqn:Hp.
      * destruct (percent_elapsed data) as [pe|e] eqn:He.
        2: { right. destruct (percent_elapsed_raises _ _ He) as [-> | ->]; reflexivity. }
        destruct (percent_bw data) as [pb|e] eqn:Hb.
        2: { right. rewrite (percent_bw_raises _ _ Hb). reflexivity. }
        destruct (int_of_float (used data)) as [iu|e] eqn:Hu.
        2: { right. destruct (int_of_float_raises _ _ Hu) as [-> | ->]; reflexivity. }
        destruct (int_of_float (total data)) as [it|e] eqn:Ht.
        2: { right. destruct (int_of_float_raises _ _ Ht) as [-> | ->]; reflexivity. }
        left. split; [reflexivity|]. right. right.
        exists data, pe, pb, iu, it. repeat split; auto.
        exists usage_data. auto.
      * right.
        destruct (parse_usage_data_raises _ _ _ Hp)
          as [(msg & -> & _) | [-> | [-> | (msg & ->)]]]; reflexivity.
    + specialize (Hf _ eq_refl). rewrite (main_fetch_raise _ _ _ _ _ Hf).
      unfold get_usage_data in Hg. pose proof (Hr _ _ _ Hg) as Hn.
      destruct e; try (right; reflexivity).
      * left. split; [reflexivity|]. right. left. exists msg. exact Hf.
      * exfalso. exact (Hn status eq_refl).
  - rewrite (main_config_raise _ _ _ _ _ Hc).
    revert Hc. cbn [mbind Monad_res].
    destruct (load_config config_file) as [cfg|e0] eqn:Hcfg; cbn [bind].
    + intros Hc. destruct (credentials_raises _ _ Hc) as [-> | ->].
      * left. split; [reflexivity|]. left. right. exists cfg. auto.
      * right. reflexivity.
    + intros [= ->]. destruct (Hl _ eq_refl) as [Hk Hn].
      destruct e; try (right; reflexivity).
      * contradiction.
      * left. split; [reflexivity|]. left. left. exists msg. exact Hcfg.
      * exfalso. exact (Hn status eq_refl).
Qed.

(** X18: when neither collaborator calls [sys.exit] (and reading the
    file raises no [KeyError] of its own), the exit status is 0 or 1, and
    it is 0 exactly when the run stopped at the configuration, stopped at
    a [RuntimeError] of the scraper, or printed the whole summary; a
    record the parser refuses ends with status 1. *)
Theorem exit_status_iff (utcoffset : Z -> Z) (load_config : string -> res value)
        (xfinity_usage_run : value -> value -> string -> res value) (config_file : string) :
  (forall e, load_config config_file = Raise e ->
             e <> KeyError /\ forall n, e <> SystemExit n) ->
  (forall username password e,
      xfinity_usage_run username password "firefox-headless" = Raise e ->
      forall n, e <> SystemExit n) ->
  (exit_status (snd (main utcoffset load_config xfinity_usage_run config_file)) = 0 \/
   exit_status (snd (main utcoffset load_config xfinity_usage_run config_file)) = 1) /\
  (exit_status (snd (main utcoffset load_config xfinity_usage_run config_file)) = 0 <->
   config_error load_config config_file \/
   fetch_error load_config xfinity_usage_run config_file \/
   summary_computed utcoffset load_config xfinity_usage_run config_file) /\
  (forall msg,
      parse_error utcoffset load_config xfinity_usage_run config_file msg ->
      exit_status (snd (main utcoffset load_config xfinity_usage_run config_file)) = 1).
Proof.
  intros Hl Hr.
  pose proof (exit_status_cases utcoffset load_config xfinity_usage_run config_file Hl Hr) as Hc.
  split; [destruct Hc as [[H _] | H]; auto|].
  split.
  - split.
    + intros H0. destruct Hc as [[_ H] | H]; [exact H | rewrite H in H0; discriminate].
    + intros [H | [[msg H] | (data & pe & pb & iu & it & (usage_data & Hf & Hp) & He & Hb & Hu & Ht)]].
      * destruct (main_config_error utcoffset load_config xfinity_usage_run _ H) as (l & -> & _).
        reflexivity.
      * rewrite (main_fetch_error _ _ _ _ _ H). reflexivity.
      * rewrite (main_fetched _ _ _ _ _ Hf), Hp, He, Hb, Hu, Ht. reflexivity.
  - intros msg (usage_data & Hf & Hp).
    rewrite (main_fetched _ _ _ _ _ Hf), Hp. reflexivity.
Qed.

Lemma exit_status_iff_witness :
  exit_status (snd (main utc config_ok (returns (VDict [])) "config.toml")) = 1 /\
  exit_status (snd (main utc config_missing (returns (VDict [])) "config.toml")) = 0.
Proof.
  split.
  - refine (proj2 (proj2 (exit_status_iff utc config_ok (returns (VDict [])) "config.toml" _ _))
              "Missing usage field" _).
    + intros e He. discriminate.
    + intros u p e He. discriminate.
    + exists (VDict []). split; [|vm_compute; reflexivity].
      exists (VDict [("username", VStr "user"); ("password", VStr "secret")]),
             (VStr "user"), (VStr "secret").
      repeat split.
  - refine (proj2 (proj1 (proj2 (exit_status_iff utc config_missing (returns (VDict []))
                                   "config.toml" _ _))) _).
    + intros e [= <-]. split; [discriminate | intros n; discriminate].
    + intros u p e He. discriminate.
    + left. left. exists "[Errno 2] No such file or directory". reflexivity.
Defined.

(** ** The dates of a parsed record *)

Lemma first_match_some {A : Type} (f : list charclass -> option A)
      (alts : list (list charclass)) (x : A) :
  first_match f alts = Some x -> exists alt, In alt alts /\ f alt = Some x.
Proof.
  induction alts as [|a alts IH]; cbn; [discriminate|].
  destruct (f a) eqn:E.
  - intros [= <-]. exists a. auto.
  - intros H. destruct (IH H) as (alt & Hin & Halt). exists alt. auto.
Qed.

(** A match of the whole expression starts with a match of one of the
    alternatives of its first directive. *)
Lemma match_directives_cons (d : directive) (ds : list directive) (s : list ascii)
      (fields : list (directive * list ascii)) (r : list ascii) :
  match_directives (d :: ds) s = Some (fields, r) ->
  exists alt tok rest fields',
    In alt (regex_of d) /\ match_classes alt s = Some (tok, rest) /\
    match_directives ds rest = Some (fields', r) /\ fields = (d, tok) :: fields'.
Proof.
  cbn [match_directives]. intros H.
  apply first_match_some in H as (alt & Hin & H).
  destruct (match_classes alt s) as [[tok rest]|] eqn:Hm; [|discriminate].
  destruct (match_directives ds rest) as [[fields' r']|] eqn:Hd; [|discriminate].
  injection H as <- <-. exists alt, tok, rest, fields'. auto.
Qed.

Ltac each_char c :=
  destruct c as [[] [] [] [] [] [] [] []]; try discriminate.

(** The text [%m] matches reads as a month number. *)
Lemma month_token (alt : list charclass) (s tok rest : list ascii) :
  In alt (regex_of Dm) -> match_classes alt s = Some (tok, rest) ->
  1 <= int_of_token tok <= 12.
Proof.
  cbn [regex_of In]. intros [<- | [<- | [<- | []]]]; cbn [match_classes].
  - destruct s as [|c1 [|c2 s']]; try discriminate.
    + destruct (lit "1" c1); discriminate.
    + destruct (lit "1" c1) eqn:E1; [|discriminate].
      destruct (between "0" "2" c2) eqn:E2; [|discriminate].
      intros [= <- _]. apply Ascii.eqb_eq in E1 as <-.
      revert E2. each_char c2; intros _; vm_compute; split; discriminate.
  - destruct s as [|c1 [|c2 s']]; try discriminate.
    + destruct (lit "0" c1); discriminate.
    + destruct (lit "0" c1) eqn:E1; [|discriminate].
      destruct (between "1" "9" c2) eqn:E2; [|discriminate].
      intros [= <- _]. apply Ascii.eqb_eq in E1 as <-.
      revert E2. each_char c2; intros _; vm_compute; split; discriminate.
  - destruct s as [|c1 s']; try discriminate.
    destruct (between "1" "9" c1) eqn:E1; [|discriminate].
    intros [= <- _].
    revert E1. each_char c1; intros _; vm_compute; split; discriminate.
Qed.

(** What [strptime] returns under [DATE_FMT]. *)
Lemma strptime_date (v : value) (t : datetime) :
  strptime v DATE_FMT = Ok t -> calendar_midnight t.
Proof.
  unfold strptime. destruct v; try discriminate.
  change (compile (list_ascii_of_string DATE_FMT))
    with (Some [Dm; Lit "/"; Dd; Lit "/"; DY]).
  cbv beta iota.
  destruct (match_directives _ _) as [[fields rest]|] eqn:Hm; [|discriminate].
  destruct rest; [|discriminate].
  apply match_directives_cons in Hm as (a1 & t1 & r1 & f1 & Hin & Hc & Hm & ->).
  apply match_directives_cons in Hm as (a2 & t2 & r2 & f2 & _ & _ & Hm & ->).
  apply match_directives_cons in Hm as (a3 & t3 & r3 & f3 & _ & _ & Hm & ->).
  apply match_directives_cons in Hm as (a4 & t4 & r4 & f4 & _ & _ & Hm & ->).
  apply match_directives_cons in Hm as (a5 & t5 & r5 & f5 & _ & _ & Hm & ->).
  cbn [match_directives] in Hm. injection Hm as <- _.
  cbn [field fold_left fst snd field_eqb].
  pose proof (month_token _ _ _ _ Hin Hc) as Hmonth.
  destruct (_ && _) eqn:G; [|discriminate].
  intros [= <-]. unfold calendar_midnight.
  cbn [year Datetime.month day hour minute second microsecond].
  apply andb_true_iff in G as [G G4]. apply andb_true_iff in G as [G G3].
  apply andb_true_iff in G as [G1 G2].
  apply Z.leb_le in G1, G2, G3, G4. repeat split; auto; lia.
Qed.

(** X19: the two dates of a parsed record are valid calendar days at
    midnight -- [DATE_FMT] has no directive for a time of day -- so they
    lie a whole number of days apart. *)
Theorem parsed_dates_are_midnights (utcoffset : Z -> Z) (usage_data : value) (data : usage) :
  parse_usage_data utcoffset usage_data = Ok data ->
  calendar_midnight (start_date data) /\
  calendar_midnight (end_date data) /\
  microseconds_between (end_date data) (start_date data)
  = (toordinal (end_date data) - toordinal (start_date data)) * 86400 * 10 ^ 6.
Proof.
  rewrite parse_usage_data_stages.
  destruct (float_field usage_data "used") as [u|e]; [|discriminate].
  destruct (float_field usage_data "total") as [t|e]; [|discriminate].
  destruct (getitem usage_data "units") as [un|e]; [|discriminate].
  destruct (usageMonths usage_data) as [months|e]; [|discriminate].
  destruct (getitem_last months) as [lm|e]; [|discriminate].
  destruct (date_field lm "startDate") as [d1|e] eqn:E1; [|discriminate].
  destruct (date_field lm "endDate") as [d2|e] eqn:E2; [|discriminate].
  destruct (mbind _ _) as [cd|e]; [|discriminate].
  intros [= <-]; cbn [start_date end_date].
  unfold date_field in E1, E2; cbn [mbind Monad_res] in E1, E2.
  destruct (getitem lm "startDate") as [v1|e]; cbn [bind] in E1; [|discriminate].
  destruct (getitem lm "endDate") as [v2|e]; cbn [bind] in E2; [|discriminate].
  pose proof (strptime_date _ _ E1) as H1.
  pose proof (strptime_date _ _ E2) as H2.
  split; [exact H1|]. split; [exact H2|].
  destruct H1 as (_ & _ & _ & Hh1 & Hm1 & Hs1 & Hu1).
  destruct H2 as (_ & _ & _ & Hh2 & Hm2 & Hs2 & Hu2).
  unfold microseconds_between, abs_microseconds.
  rewrite Hh1, Hm1, Hs1, Hu1, Hh2, Hm2, Hs2, Hu2. ring.
Qed.

Lemma parsed_dates_are_midnights_witness :
  parse_usage_data utc (VDict (record (VStr "50") (VStr "100") january))
    = Ok (january_usage 50 100) /\
  microseconds_between (end_date (january_usage 50 100)) (start_date (january_usage 50 100))
  = (toordinal (end_date (january_usage 50 100))
     - toordinal (start_date (january_usage 50 100))) * 86400 * 10 ^ 6.
Proof.
  split; [vm_compute; reflexivity|].
  refine (proj2 (proj2 (parsed_dates_are_midnights utc
                   (VDict (record (VStr "50") (VStr "100") january))
                   (january_usage 50 100) _))).
  vm_compute; reflexivity.
Defined.

(** ** How far a run got *)

(** X20: the progress lines tell how far the run got: "Requesting usage
    data..." is printed exactly when the credentials were read, and
    "Parsing usage data..." exactly when the scraper returned a record. *)
Theorem progress_lines_printed (utcoffset : Z -> Z) (load_config : string -> res value)
        (xfinity_usage_run : value -> value -> string -> res value) (config_file : string) :
  (In (mkline stdout "Requesting usage data..." [])
      (fst (main utcoffset load_config xfinity_usage_run config_file)) <->
   exists username password,
     (cfg <- load_config config_file ;; credentials cfg) = Ok (username, password)) /\
  (In (mkline stdout "Parsing usage data..." [])
      (fst (main utcoffset load_config xfinity_usage_run config_file)) <->
   exists usage_data, fetched load_config xfinity_usage_run config_file (Ok usage_data)).
Proof.
  destruct (cfg <- load_config config_file ;; credentials cfg) as [[u p]|e] eqn:Hc.
  - pose proof (credentials_read load_config xfinity_usage_run _ _ _ Hc) as Hf.
    assert (Hdet : forall r, fetched load_config xfinity_usage_run config_file r ->
                             r = get_usage_data xfinity_usage_run u p).
    { intros r (cfg & u' & p' & Hcfg & Hcred & <-).
      cbn [mbind Monad_res] in Hc. rewrite Hcfg in Hc; cbn [bind] in Hc.
      rewrite Hcred in Hc. injection Hc as -> ->. reflexivity. }
    destruct (get_usage_data xfinity_usage_run u p) as [usage_data|e] eqn:Hg.
    + specialize (Hf _ eq_refl). rewrite (main_fetched _ _ _ _ _ Hf).
      match goal with
      | |- (In ?a (fst ?m) <-> _) /\ (In ?b _ <-> _) =>
          assert (Hin : In a (fst m) /\ In b (fst m))
      end.
      { unfold progress_lines.
        destruct (parse_usage_data utcoffset usage_data) as [data|e].
        - destruct (percent_elapsed data); [|cbn; auto].
          destruct (percent_bw data); [|cbn; auto].
          destruct (int_of_float (used data)); [|cbn; auto].
          destruct (int_of_float (total data)); cbn; auto.
        - destruct e; cbn; auto. }
      destruct Hin as [Hreq Hpar].
      split; split.
      * intros _. eauto.
      * intros _. exact Hreq.
      * intros _. exists usage_data. exact Hf.
      * intros _. exact Hpar.
    + specialize (Hf _ eq_refl). rewrite (main_fetch_raise _ _ _ _ _ Hf).
      split; split.
      * intros _. eauto.
      * intros _. destruct e; cbn; auto.
      * destruct e; cbn; intros H; repeat (destruct H as [H | H]; [discriminate|]); destruct H.
      * intros (usage_data & H). apply Hdet in H. discriminate.
  - rewrite (main_config_raise _ _ _ _ _ Hc).
    split; split.
    + destruct e; cbn; intros H; repeat (destruct H as [H | H]; [discriminate|]); destruct H.
    + intros (u & p & H). discriminate.
    + destruct e; cbn; intros H; repeat (destruct H as [H | H]; [discriminate|]); destruct H.
    + intros (usage_data & cfg & u & p & Hcfg & Hcred & _).
      cbn [mbind Monad_res] in Hc. rewrite Hcfg in Hc; cbn [bind] in Hc.
      rewrite Hcred in Hc. discriminate.
Qed.
